(** * Travel planning assistant: conversation workflow and session store

    A shallow embedding of [travel_agent.py], [session_manager.py] and the
    endpoints of [backend.py] (chat, clear, session info), with the
    properties of the design document stated and settled against it, and
    further properties read off the code.

    Conventions.
    - Python values that flow through the untyped dictionaries of the
      program are values of [pyval]; a [dict] with string keys is a
      [gmap string pyval].
    - A Python call that may raise returns a [result]; the exceptions are
      the subclasses of [Exception] (the ones [except Exception] and a bare
      [except] both catch).
    - The completion API, [json.loads], [datetime.isoformat],
      [datetime.fromisoformat] and the wall clock are library code: they
      are parameters of the sections that use them. *)

From Stdlib Require Import ZArith QArith String Ascii DecimalString DecimalZ.
From stdpp Require Import gmap strings list fin_maps pretty.

Set Warnings "-register-all".

(* ===================================================================== *)
(** ** Python values and exceptions *)
(* ===================================================================== *)

Module Py.

(** A Python [float]: a finite value (kept as the rational it denotes) or
    one of the three special values [json.loads] also produces. *)
Inductive pyfloat :=
| FNum (q : Q)
| FInf
| FNegInf
| FNan.

Inductive pyval :=
| PNone
| PBool (b : bool)
| PInt (z : Z)
| PFloat (f : pyfloat)
| PStr (s : string)
| PList (l : list pyval)
| PDict (d : gmap string pyval).

Abbreviation pydict := (gmap string pyval).

Inductive exn_class :=
| AttributeError
| TypeError
| KeyError
| ValueError
| OverflowError
| OtherError.

(** An exception: its class and the text [str(e)] gives. *)
Record exn := Exn { exn_cls : exn_class; exn_text : string }.

Inductive result (A : Type) :=
| Ok (a : A)
| Raise (e : exn).
Arguments Ok {A} a.
Arguments Raise {A} e.

#[export] Instance result_ret : MRet result := λ A a, Ok a.
#[export] Instance result_bind : MBind result := λ A B k c,
  match c with
  | Ok a => k a
  | Raise e => Raise e
  end.

(** [try: body except: handler] for a handler that catches everything. *)
Definition try_except {A} (body : result A) (handler : exn → A) : A :=
  match body with
  | Ok a => a
  | Raise e => handler e
  end.

Definition nl : string := String "010"%char EmptyString.
Definition dq : string := String "034"%char EmptyString.
Definition sq : string := "'".

Definition type_name (v : pyval) : string :=
  match v with
  | PNone => "NoneType"
  | PBool _ => "bool"
  | PInt _ => "int"
  | PFloat _ => "float"
  | PStr _ => "str"
  | PList _ => "list"
  | PDict _ => "dict"
  end.

Definition no_attribute (v : pyval) (attr : string) : exn :=
  Exn AttributeError
      (sq +:+ type_name v +:+ "' object has no attribute '" +:+ attr +:+ sq).

(** Truth value of an object, as [if v:] tests it. *)
Definition truthy (v : pyval) : bool :=
  match v with
  | PNone => false
  | PBool b => b
  | PInt z => negb (z =? 0)%Z
  | PFloat (FNum q) => negb (Qeq_bool q 0)
  | PFloat _ => true
  | PStr s => negb (String.eqb s "")
  | PList l => match l with [] => false | _ => true end
  | PDict d => negb (bool_decide (d = ∅))
  end.

(** [v.get(key, dflt)]: defined on dictionaries only. *)
Definition py_get (v : pyval) (key : string) (dflt : pyval) : result pyval :=
  match v with
  | PDict d => Ok (default dflt (d !! key))
  | _ => Raise (no_attribute v "get")
  end.

(** [v[key]] for a string key on a dictionary: [KeyError] when absent,
    whose text is the [repr] of the key. *)
Definition py_item (d : pydict) (key : string) : result pyval :=
  match d !! key with
  | Some x => Ok x
  | None => Raise (Exn KeyError (sq +:+ key +:+ sq))
  end.

(** Whether an object can be a dictionary key: lists and dictionaries
    cannot. *)
Definition hashable (v : pyval) : bool :=
  match v with
  | PList _ | PDict _ => false
  | _ => true
  end.

Definition unhashable (v : pyval) : exn :=
  Exn TypeError ("unhashable type: '" +:+ type_name v +:+ sq).

(** [l[-n:]]: the slice that starts [n] places before the end, or at the
    start when the list is shorter. *)
Definition slice_last {A} (n : nat) (l : list A) : list A :=
  drop (length l - n) l.

(** [l[:n]]. *)
Definition slice_first {A} (n : nat) (l : list A) : list A := take n l.

(** [v > f] for a float literal [f] on the right: numbers (and booleans,
    which are integers) compare by value, any other operand raises. The
    literal is given as the decimal fraction written in the program; for
    [0.7] no float and no integer lies between the float the literal denotes
    and the fraction, so the comparison has the same outcome. *)
Definition gt_float (v : pyval) (f : Q) : result bool :=
  match v with
  | PBool b => Ok (negb (Qle_bool (inject_Z (if b then 1 else 0)) f))
  | PInt z => Ok (negb (Qle_bool (inject_Z z) f))
  | PFloat (FNum q) => Ok (negb (Qle_bool q f))
  | PFloat FInf => Ok true
  | PFloat FNegInf => Ok false
  | PFloat FNan => Ok false
  | _ =>
      Raise (Exn TypeError
               ("'>' not supported between instances of '" +:+ type_name v
                +:+ "' and 'float'"))
  end.

End Py.

Import Py.

(* ===================================================================== *)
(** ** The conversation workflow ([travel_agent.py]) *)
(* ===================================================================== *)

Module Agent.

(** A role-tagged message, the two-key dictionary
    [{"role": ..., "content": ...}]. *)
Record message := Message { role : string; content : pyval }.

(** One call of [client.chat.completions.create]: the message list, whether
    [response_format] asks for a JSON object, and [max_completion_tokens]. *)
Record request := Request {
  req_messages : list message;
  req_json_mode : bool;
  req_max_tokens : Z
}.

(** The state dictionary threaded through the graph. A key that is not in
    the dictionary is [None] here. *)
Record wstate := WState {
  current_message : option string;
  session_id : option string;
  conversation_history : option (list message);
  intent : option pyval;
  entities : option pyval;
  confidence : option pyval;
  response : option string
}.

Definition set_classification (st : wstate) (i e c : pyval) : wstate :=
  {| current_message := current_message st;
     session_id := session_id st;
     conversation_history := conversation_history st;
     intent := Some i;
     entities := Some e;
     confidence := Some c;
     response := response st |}.

Definition set_response (st : wstate) (r : string) : wstate :=
  {| current_message := current_message st;
     session_id := session_id st;
     conversation_history := conversation_history st;
     intent := intent st;
     entities := entities st;
     confidence := confidence st;
     response := Some r |}.

(** [state.get("intent", "general_travel")] and
    [state.get("confidence", 0.5)]. *)
Definition get_intent (st : wstate) : pyval :=
  default (PStr "general_travel") (intent st).

Definition get_confidence (st : wstate) : pyval :=
  default (PFloat (FNum (1 # 2))) (confidence st).

Definition indent : string := "                        ".

Definition classifier_prompt : string :=
  "You are a travel intent classifier. Analyze the user's message and classify it into one of these categories:" +:+ nl +:+
  indent +:+ "- destination_inquiry: asking about places to visit" +:+ nl +:+
  indent +:+ "- itinerary_planning: planning day-by-day activities" +:+ nl +:+
  indent +:+ "- budget_planning: asking about costs and budgets" +:+ nl +:+
  indent +:+ "- accommodation: hotels, stays, lodging" +:+ nl +:+
  indent +:+ "- transportation: flights, trains, cars, local transport" +:+ nl +:+
  indent +:+ "- dining: restaurants, local food, cuisine" +:+ nl +:+
  indent +:+ "- requirements: visas, documents, travel requirements" +:+ nl +:+
  indent +:+ "- general_travel: general travel advice or tips" +:+ nl +:+
  indent +:+ "- greeting: initial greeting or introduction" +:+ nl +:+
  indent +:+ "- other: non-travel related" +:+ nl +:+
  indent +:+ nl +:+
  indent +:+ "Respond with JSON: {" +:+ dq +:+ "intent" +:+ dq +:+ ": "
    +:+ dq +:+ "category" +:+ dq +:+ ", " +:+ dq +:+ "confidence" +:+ dq
    +:+ ": 0.95, " +:+ dq +:+ "key_entities" +:+ dq +:+ ": [" +:+ dq
    +:+ "entity1" +:+ dq +:+ ", " +:+ dq +:+ "entity2" +:+ dq +:+ "]}".

Definition system_prompts : gmap string string :=
  list_to_map [
    ("destination_inquiry", "You are an expert travel advisor specializing in destination recommendations. Provide detailed, personalized suggestions based on the user's preferences, including best times to visit, must-see attractions, and insider tips.");
    ("itinerary_planning", "You are a professional itinerary planner. Create detailed day-by-day plans with specific times, locations, and activities. Consider travel time between locations and practical logistics.");
    ("budget_planning", "You are a travel budget specialist. Provide detailed cost breakdowns for different travel styles (budget, mid-range, luxury) including accommodation, food, transportation, and activities.");
    ("accommodation", "You are a hotel and accommodation expert. Recommend specific places to stay based on budget, location preferences, and travel style. Include booking tips and alternatives.");
    ("transportation", "You are a transportation planning expert. Provide detailed advice on flights, ground transportation, and local travel options with specific recommendations and booking strategies.");
    ("dining", "You are a culinary travel expert. Recommend authentic local restaurants, must-try dishes, food markets, and dining experiences that showcase local culture.");
    ("requirements", "You are a travel documentation and requirements specialist. Provide accurate, up-to-date information about visas, passports, health requirements, and travel restrictions.");
    ("greeting", "You are a friendly travel planning assistant. Welcome the user warmly and explain how you can help them plan their perfect trip.");
    ("general_travel", "You are an experienced travel advisor. Provide helpful, practical travel advice and be ready to assist with any aspect of trip planning.")
  ].

Definition general_travel_prompt : string :=
  "You are an experienced travel advisor. Provide helpful, practical travel advice and be ready to assist with any aspect of trip planning.".

Definition instruction_suffix : string :=
  nl +:+ nl +:+ "Always be enthusiastic, helpful, and provide actionable advice. If you need more information to give better recommendations, ask specific follow-up questions.".

Definition followup_questions : gmap string (list string) :=
  list_to_map [
    ("destination_inquiry",
      [ "What's your budget range for this trip?";
        "How many days are you planning to travel?";
        "What type of activities interest you most (adventure, culture, relaxation, nightlife)?" ]);
    ("itinerary_planning",
      [ "What's your preferred pace (packed schedule vs. relaxed)?";
        "Are there any specific must-see attractions on your list?";
        "What's your accommodation preference (location, style)?" ]);
    ("budget_planning",
      [ "What's your total budget range?";
        "Which expenses are most important to you (accommodation, food, activities)?";
        "Are you flexible with travel dates for better deals?" ])
  ].

Definition followup_header : string :=
  nl +:+ nl +:+ "🤔 **To help you better, I'd love to know:**" +:+ nl.

Definition bullet (q : string) : string := "• " +:+ q.

(** The intents listed in [should_ask_followup]. *)
Definition followup_intents : list string :=
  ["destination_inquiry"; "itinerary_planning"; "budget_planning"].


(** The two targets of the conditional edge after [generate_response]. *)
Inductive edge := Followup | Respond.

(** [system_prompts.get(intent, system_prompts["general_travel"])]: the
    key is hashed first, so a list or a dictionary raises; a key that is not
    a string equals none of the table's keys. *)
Definition select_system_prompt (i : pyval) : result string :=
  if hashable i then
    match i with
    | PStr s => Ok (default general_travel_prompt (system_prompts !! s))
    | _ => Ok general_travel_prompt
    end
  else Raise (unhashable i).

(** [intent in [...]]: equality with one of the listed strings. *)
Definition in_followup_intents (i : pyval) : bool :=
  match i with
  | PStr s => bool_decide (s ∈ followup_intents)
  | _ => false
  end.

(** [intent in followup_questions] followed by [followup_questions[intent]]:
    the bank of the intent, if it has one. *)
Definition lookup_bank (i : pyval) : result (option (list string)) :=
  if hashable i then
    match i with
    | PStr s => Ok (followup_questions !! s)
    | _ => Ok None
    end
  else Raise (unhashable i).

Section Workflow.

(** The completion API, reduced to what the program reads from its
    answer ([response.choices[0].message.content]), and [json.loads]
    ([None] stands for a [JSONDecodeError]). *)
Variable complete : request → result string.
Variable json_loads : string → option pyval.

Definition loads (s : string) : result pyval :=
  match json_loads s with
  | Some v => Ok v
  | None => Raise (Exn ValueError "Expecting value: line 1 column 1 (char 0)")
  end.

Definition classifier_request (msg : string) : request :=
  {| req_messages :=
       [ Message "system" (PStr classifier_prompt);
         Message "user" (PStr msg) ];
     req_json_mode := true;
     req_max_tokens := 200 |}.

(** The [try] block of [analyze_travel_intent]. *)
Definition read_classification (st : wstate) (text : string) : result wstate :=
  intent_data ← loads text;
  i ← py_get intent_data "intent" (PStr "general_travel");
  e ← py_get intent_data "key_entities" (PList []);
  c ← py_get intent_data "confidence" (PFloat (FNum (1 # 2)));
  mret (set_classification st i e c).

Definition default_classification (st : wstate) : wstate :=
  set_classification st (PStr "general_travel") (PList [])
                     (PFloat (FNum (1 # 2))).

Definition analyze_travel_intent (st : wstate) : result wstate :=
  let message := default "" (current_message st) in
  text ← complete (classifier_request message);
  mret (try_except (read_classification st text)
                   (λ _, default_classification st)).

(** The loop [for msg in history[-6:]: messages.append(msg)]. *)
Definition append_all (messages history : list message) : list message :=
  foldl (λ acc msg, acc ++ [msg]) messages history.

Definition generator_messages (prompt : string) (history : list message)
    (msg : string) : list message :=
  let messages := [ Message "system" (PStr (prompt +:+ instruction_suffix)) ] in
  let messages := append_all messages (slice_last 6 history) in
  messages ++ [ Message "user" (PStr msg) ].

Definition generate_travel_response (st : wstate) : result wstate :=
  let message := default "" (current_message st) in
  let i := get_intent st in
  let history := default [] (conversation_history st) in
  system_prompt ← select_system_prompt i;
  text ← complete {| req_messages := generator_messages system_prompt history message;
                     req_json_mode := false;
                     req_max_tokens := 800 |};
  mret (set_response st text).

Definition should_ask_followup (st : wstate) : result edge :=
  let i := get_intent st in
  let c := get_confidence st in
  if in_followup_intents i then
    high ← gt_float c (7 # 10);
    mret (if high : bool then Followup else Respond)
  else mret Respond.

Definition followup_text (questions : list string) : string :=
  followup_header +:+ String.concat nl (bullet <$> slice_first 2 questions).

Definition add_followup_questions (st : wstate) : result wstate :=
  let current_response := default "" (response st) in
  let i := get_intent st in
  bank ← lookup_bank i;
  match bank with
  | Some questions =>
      mret (set_response st (current_response +:+ followup_text questions))
  | None => mret st
  end.

(** The conditional edge out of [generate_response] and what follows it. *)
Definition after_generation (st : wstate) : result wstate :=
  e ← should_ask_followup st;
  match e with
  | Followup => add_followup_questions st
  | Respond => mret st
  end.

(** The compiled graph: [analyze_intent], then [generate_response], then
    the conditional edge. *)
Definition invoke (st : wstate) : result wstate :=
  st ← analyze_travel_intent st;
  st ← generate_travel_response st;
  after_generation st.

Definition graph_error (e : exn) : wstate :=
  {| current_message := None; session_id := None;
     conversation_history := None; intent := None; entities := None;
     confidence := None;
     response := Some ("Graph execution error: " +:+ exn_text e) |}.

Definition _run_graph_async (initial_state : wstate) : wstate :=
  try_except (invoke initial_state) graph_error.

(** One turn of the loop that reshapes the history in [process_message]:
    [msg.get("role")] needs a dictionary, [msg["content"]] needs the
    key. *)
Definition format_entry (msg : pyval) : result (list message) :=
  match msg with
  | PDict d =>
      match d !! "role" with
      | Some (PStr "user") =>
          c ← py_item d "content"; mret [Message "user" c]
      | Some (PStr "assistant") =>
          c ← py_item d "content"; mret [Message "assistant" c]
      | _ => mret []
      end
  | _ => Raise (no_attribute msg "get")
  end.

Fixpoint format_history (history : list pyval) : result (list message) :=
  match history with
  | [] => mret []
  | msg :: rest =>
      entry ← format_entry msg;
      formatted ← format_history rest;
      mret (entry ++ formatted)
  end.

Definition no_response : string :=
  "I'm sorry, I couldn't process your travel request. Please try again!".

(** The text of the [except] clause of [process_message]. *)
Definition apology (e : exn) : string :=
  "I encountered an error while planning your trip: " +:+ exn_text e
  +:+ ". Please try rephrasing your question.".

(** The body of the [try] block of [process_message]. *)
Definition process_body (message sid : string)
    (conversation_history : option (list pyval)) : result string :=
  let conversation_history := default [] conversation_history in
  formatted_history ← format_history conversation_history;
  let initial_state :=
    {| current_message := Some message; session_id := Some sid;
       conversation_history := Some formatted_history;
       intent := None; entities := None; confidence := None;
       response := None |} in
  let result := _run_graph_async initial_state in
  mret (default no_response (response result)).

Definition process_message (message sid : string)
    (conversation_history : option (list pyval)) : string :=
  try_except (process_body message sid conversation_history) apology.

End Workflow.

End Agent.

(* ===================================================================== *)
(** ** The session store ([session_manager.py]) *)
(* ===================================================================== *)

Module SessionManager.

(** What [datetime.fromisoformat] returns: a datetime with or without a
    UTC offset. An instant is a number of microseconds on the UTC time
    line. *)
Inductive datetime :=
| Aware (t : Z)
| Naive (t : Z).

(** The store: the [sessions] dictionary, and how many times the clock has
    been read so far. Each session record is itself a dictionary. A local
    variable bound to [self.sessions[session_id]] is an alias of the stored
    record: the model writes every assignment through it back to the
    store. Records are kept by value: each session id owns its record and
    the dictionaries in it, as in every call the program makes. *)
Record manager := Manager {
  sessions : gmap string pydict;
  ticks : nat
}.

(** A store operation: it returns or raises, and leaves a store behind in
    both cases. *)
Definition M (A : Type) : Type := manager → result A * manager.

#[export] Instance M_ret : MRet M := λ A a m, (Ok a, m).
#[export] Instance M_bind : MBind M := λ A B k c m,
  match c m with
  | (Ok a, m') => k a m'
  | (Raise e, m') => (Raise e, m')
  end.

Definition raise {A} (e : exn) : M A := λ m, (Raise e, m).

Definition lift {A} (c : result A) : M A := λ m, (c, m).

(** [try: body except (ValueError, TypeError): handler]; any other
    exception goes on. *)
Definition try_value_type {A} (body : result A) (handler : A) : result A :=
  match body with
  | Ok a => Ok a
  | Raise e =>
      match exn_cls e with
      | ValueError | TypeError => Ok handler
      | _ => Raise e
      end
  end.

(** [s.replace('Z', '+00:00')]. *)
Fixpoint replace_Z (s : string) : string :=
  match s with
  | EmptyString => EmptyString
  | String c rest =>
      if Ascii.eqb c "Z"%char then "+00:00" +:+ replace_Z rest
      else String c (replace_Z rest)
  end.

Definition microseconds_per_hour : Z := 3600000000.

(** The first and the last instant a [datetime] can hold, the start of
    year 1 and the end of year 9999, in microseconds from the epoch. *)
Definition min_instant : Z := -62135596800000000.
Definition max_instant : Z := 253402300799999999.

(** [timedelta(hours=hours)] for an integer, as a number of microseconds:
    the whole days it amounts to must not exceed 999999999 in magnitude. *)
Definition timedelta_hours (hours : Z) : result Z :=
  let days := (hours `div` 24)%Z in
  if bool_decide (-999999999 ≤ days ≤ 999999999)%Z then
    Ok (hours * microseconds_per_hour)%Z
  else if bool_decide (-2147483648 ≤ days ≤ 2147483647)%Z then
    Raise (Exn OverflowError
             ("days=" +:+ pretty days +:+ "; must have magnitude <= 999999999"))
  else Raise (Exn OverflowError "Python int too large to convert to C int").

(** [t - delta] for a datetime and a timedelta: the result must be a
    datetime. *)
Definition datetime_sub (t delta : Z) : result Z :=
  if bool_decide (min_instant ≤ t - delta ≤ max_instant)%Z then
    Ok (t - delta)%Z
  else Raise (Exn OverflowError "date value out of range").

(** [len(v)]. *)
Definition py_len (v : pyval) : result nat :=
  match v with
  | PStr s => Ok (String.length s)
  | PList l => Ok (length l)
  | PDict d => Ok (size d)
  | _ => Raise (Exn TypeError
                  ("object of type '" +:+ type_name v +:+ "' has no len()"))
  end.

(** The error of [v[key] = x] for a string key on an object that is not a
    dictionary. *)
Definition no_item_assignment (v : pyval) : exn :=
  match v with
  | PList _ =>
      Exn TypeError "list indices must be integers or slices, not str"
  | _ =>
      Exn TypeError
          (sq +:+ type_name v +:+ "' object does not support item assignment")
  end.

Section Store.

(** The wall clock, as the sequence of values its successive readings
    give, and the two conversions of the [datetime] library. *)
Variable clock : nat → Z.
Variable isoformat : Z → string.
Variable fromisoformat : string → option datetime.

(** [datetime.now(timezone.utc).isoformat()]. *)
Definition now : M Z := λ m,
  (Ok (clock (ticks m)), {| sessions := sessions m; ticks := S (ticks m) |}).

Definition now_iso : M pyval :=
  t ← now; mret (PStr (isoformat t)).

(** [session_id in self.sessions]. *)
Definition has_session (sid : string) : M bool := λ m,
  (Ok (bool_decide (is_Some (sessions m !! sid))), m).

(** [self.sessions[session_id]]. *)
Definition read_session (sid : string) : M pydict := λ m,
  match sessions m !! sid with
  | Some r => (Ok r, m)
  | None => (Raise (Exn KeyError (sq +:+ sid +:+ sq)), m)
  end.

(** [self.sessions[session_id] = record]. *)
Definition write_session (sid : string) (r : pydict) : M unit := λ m,
  (Ok (), {| sessions := <[sid := r]> (sessions m); ticks := ticks m |}).

(** [self.sessions[session_id][key] = v]. *)
Definition set_field (sid key : string) (v : pyval) : M unit :=
  r ← read_session sid; write_session sid (<[key := v]> r).

(** [del self.sessions[session_id]]. *)
Definition del_session (sid : string) : M unit := λ m,
  match sessions m !! sid with
  | Some _ => (Ok (), {| sessions := delete sid (sessions m); ticks := ticks m |})
  | None => (Raise (Exn KeyError (sq +:+ sid +:+ sq)), m)
  end.

Definition get_session (sid : string) : M pydict :=
  present ← has_session sid;
  _ ← (if negb present then
         created ← now_iso;
         updated ← now_iso;
         write_session sid
           (<["travel_context" := PDict ∅]>
             (<["user_preferences" := PDict ∅]>
               (<["messages" := PList []]>
                 (<["last_updated" := updated]>
                   (<["created_at" := created]> ∅)))))
       else
         updated ← now_iso;
         set_field sid "last_updated" updated);
  read_session sid.

(** [session_data] is either the stored record itself (every caller in
    the program passes the record it got from [get_session]) or a new
    dictionary. In the first case the assignment to
    [session_data["last_updated"]] is an assignment to the stored record
    and [update] merges the record into itself; the merge below gives the
    same record. *)
Definition update_session (sid : string) (session_data : pydict) : M unit :=
  present ← has_session sid;
  if (present : bool) then
    updated ← now_iso;
    let session_data := <["last_updated" := updated]> session_data in
    r ← read_session sid;
    write_session sid (session_data ∪ r)
  else
    created ← now_iso;
    let session_data := <["created_at" := created]> session_data in
    updated ← now_iso;
    let session_data := <["last_updated" := updated]> session_data in
    write_session sid session_data.

Definition clear_session (sid : string) : M unit :=
  present ← has_session sid;
  if (present : bool) then
    _ ← set_field sid "messages" (PList []);
    updated ← now_iso;
    set_field sid "last_updated" updated
  else mret ().

Definition delete_session (sid : string) : M bool :=
  present ← has_session sid;
  if (present : bool) then _ ← del_session sid; mret true
  else mret false.

Definition get_session_count : M nat := λ m, (Ok (size (sessions m)), m).

(** The body of the [try] in the loop of [cleanup_old_sessions]: whether
    the record is to be deleted. *)
Definition is_stale (cutoff_time : Z) (session_data : pydict) : result bool :=
  let last_updated_str := default PNone (session_data !! "last_updated") in
  if truthy last_updated_str then
    match last_updated_str with
    | PStr s =>
        match fromisoformat (replace_Z s) with
        | Some (Aware last_updated) => Ok (last_updated <? cutoff_time)%Z
        | Some (Naive _) =>
            Raise (Exn TypeError
                     "can't compare offset-naive and offset-aware datetimes")
        | None =>
            Raise (Exn ValueError
                     ("Invalid isoformat string: '" +:+ replace_Z s +:+ sq))
        end
    | v => Raise (no_attribute v "replace")
    end
  else Ok false.

(** The first loop: collect the ids to delete. The loop runs over the
    items of the dictionary; the ids it collects, and whether it raises, do
    not depend on their order. *)
Fixpoint collect_stale (cutoff_time : Z) (items : list (string * pydict))
    (sessions_to_delete : list string) : result (list string) :=
  match items with
  | [] => Ok sessions_to_delete
  | (sid, session_data) :: rest =>
      stale ← try_value_type (is_stale cutoff_time session_data) true;
      collect_stale cutoff_time rest
        (if stale : bool then sessions_to_delete ++ [sid]
         else sessions_to_delete)
  end.

(** The second loop: delete them. *)
Fixpoint delete_all (sessions_to_delete : list string) : M unit :=
  match sessions_to_delete with
  | [] => mret ()
  | sid :: rest => _ ← del_session sid; delete_all rest
  end.

(** [cleanup_old_sessions]: the cutoff is computed before the [try], so
    a horizon that [timedelta] or the subtraction refuses raises here, with
    the store untouched. *)
Definition cleanup_old_sessions (hours : Z) : M nat :=
  t ← now;
  delta ← lift (timedelta_hours hours);
  cutoff_time ← lift (datetime_sub t delta);
  items ← (λ m, (Ok (map_to_list (sessions m)), m));
  sessions_to_delete ← lift (collect_stale cutoff_time items []);
  _ ← delete_all sessions_to_delete;
  mret (length sessions_to_delete).

Definition save_user_preference (sid key : string) (value : pyval) : M unit :=
  session ← get_session sid;
  _ ← (if bool_decide (session !! "user_preferences" = None)
       then set_field sid "user_preferences" (PDict ∅)
       else mret () : M unit);
  session ← read_session sid;
  _ ← match session !! "user_preferences" with
      | Some (PDict prefs) =>
          set_field sid "user_preferences" (PDict (<[key := value]> prefs))
      | Some v => raise (no_item_assignment v)
      | None => raise (Exn KeyError "'user_preferences'")
      end : M unit;
  session ← read_session sid;
  update_session sid session.

Definition get_user_preference (sid key : string) (dflt : pyval) : M pyval :=
  session ← get_session sid;
  let prefs := default (PDict ∅) (session !! "user_preferences") in
  lift (py_get prefs key dflt).

Definition save_travel_context (sid : string) (context : pydict) : M unit :=
  session ← get_session sid;
  _ ← (if bool_decide (session !! "travel_context" = None)
       then set_field sid "travel_context" (PDict ∅)
       else mret () : M unit);
  session ← read_session sid;
  _ ← match session !! "travel_context" with
      | Some (PDict ctx) =>
          set_field sid "travel_context" (PDict (context ∪ ctx))
      | Some v => raise (no_attribute v "update")
      | None => raise (Exn KeyError "'travel_context'")
      end : M unit;
  session ← read_session sid;
  update_session sid session.

Definition get_travel_context (sid : string) : M pyval :=
  session ← get_session sid;
  mret (default (PDict ∅) (session !! "travel_context")).

(** The operations of the store, and the store each one leaves. *)
Inductive store_op :=
| OpGetSession (sid : string)
| OpUpdateSession (sid : string) (session_data : pydict)
| OpClearSession (sid : string)
| OpDeleteSession (sid : string)
| OpCleanup (hours : Z)
| OpSavePreference (sid key : string) (value : pyval)
| OpGetPreference (sid key : string) (dflt : pyval)
| OpSaveContext (sid : string) (context : pydict)
| OpGetContext (sid : string).

Definition run_op (op : store_op) (m : manager) : manager :=
  match op with
  | OpGetSession sid => (get_session sid m).2
  | OpUpdateSession sid d => (update_session sid d m).2
  | OpClearSession sid => (clear_session sid m).2
  | OpDeleteSession sid => (delete_session sid m).2
  | OpCleanup h => (cleanup_old_sessions h m).2
  | OpSavePreference sid k v => (save_user_preference sid k v m).2
  | OpGetPreference sid k d => (get_user_preference sid k d m).2
  | OpSaveContext sid c => (save_travel_context sid c m).2
  | OpGetContext sid => (get_travel_context sid m).2
  end.

(** The instant a timestamp field of a record denotes. *)
Definition stamp (r : pydict) (key : string) : option Z :=
  match r !! key with
  | Some (PStr s) =>
      match fromisoformat s with
      | Some (Aware t) => Some t
      | _ => None
      end
  | _ => None
  end.

(** The record [get_session] creates when it reads the clock for the
    [n]-th and the [n+1]-st time. *)
Definition fresh_record (n : nat) : pydict :=
  <["travel_context" := PDict ∅]>
    (<["user_preferences" := PDict ∅]>
      (<["messages" := PList []]>
        (<["last_updated" := PStr (isoformat (clock (S n)))]>
          (<["created_at" := PStr (isoformat (clock n))]> ∅)))).

(** Eviction, in the words of the code: a record goes when its
    [last_updated] is a non-empty string that denotes an instant before
    the cutoff, or that [fromisoformat] rejects, or that carries no UTC
    offset. A record without [last_updated], or with an empty or
    otherwise false one, stays. *)
Definition evicted (cutoff_time : Z) (r : pydict) : bool :=
  match r !! "last_updated" with
  | Some (PStr s) =>
      if String.eqb s "" then false
      else match fromisoformat (replace_Z s) with
           | Some (Aware t) => (t <? cutoff_time)%Z
           | Some (Naive _) => true
           | None => true
           end
  | _ => false
  end.

(** A [last_updated] on which [cleanup_old_sessions] does not raise:
    nothing, a false value, or a string. *)
Definition scannable (r : pydict) : Prop :=
  ∀ v, r !! "last_updated" = Some v → truthy v = true → ∃ s, v = PStr s.

(** The invariant of a record at the [n]-th reading of the clock: both
    timestamps denote instants, [created_at] is not after [last_updated],
    and [created_at] is not in the future. *)
Definition record_inv (n : nat) (r : pydict) : Prop :=
  ∃ c u, stamp r "created_at" = Some c
         ∧ stamp r "last_updated" = Some u
         ∧ (c ≤ u)%Z ∧ (c ≤ clock n)%Z.

Definition store_inv (m : manager) : Prop :=
  ∀ sid r, sessions m !! sid = Some r → record_inv (ticks m) r.

(** The records [update_session] may be given without harm: for a
    session that exists, one that carries no [created_at] or one not
    later than the clock. *)
Definition admissible (m : manager) (op : store_op) : Prop :=
  match op with
  | OpUpdateSession sid session_data =>
      is_Some (sessions m !! sid) →
      session_data !! "created_at" = None
      ∨ ∃ c, stamp session_data "created_at" = Some c
             ∧ (c ≤ clock (ticks m))%Z
  | _ => True
  end.

(** A triple for store operations: from a store that satisfies [P], the
    operation returns in a store that satisfies [Q] of the result, or
    raises in a store that satisfies [E]. *)
Definition hoare {A} (P : manager → Prop) (c : M A)
    (Q : A → manager → Prop) (E : manager → Prop) : Prop :=
  ∀ m, P m →
    match c m with
    | (Ok a, m') => Q a m'
    | (Raise _, m') => E m'
    end.

(** The preferences dictionary of a session, if the store has one. *)
Definition preferences (m : manager) (sid : string) : option pydict :=
  match sessions m !! sid with
  | Some r =>
      match r !! "user_preferences" with
      | Some (PDict d) => Some d
      | None => Some ∅
      | Some _ => None
      end
  | None => Some ∅
  end.

End Store.

End SessionManager.

(* ===================================================================== *)
(** ** The session-info endpoint ([backend.py]) *)
(* ===================================================================== *)

Module Backend.

Import SessionManager.

(** The dictionary the endpoint returns. *)
Record session_info := SessionInfo {
  info_session_id : string;
  message_count : nat;
  created_at : pyval;
  last_updated : pyval
}.

(** What an endpoint gives back: a reply, or an [HTTPException] with its
    status code and detail. *)
Inductive http (A : Type) :=
| Reply (a : A)
| HTTPException (status_code : nat) (detail : string).
Arguments Reply {A} a.
Arguments HTTPException {A} status_code detail.

Section Endpoints.

Variable clock : nat → Z.
Variable isoformat : Z → string.

(** The body of the [try] block of [get_session_info]. *)
Definition session_info_body (sid : string) : M session_info :=
  session ← get_session clock isoformat sid;
  n ← lift (py_len (default (PList []) (session !! "messages")));
  mret {| info_session_id := sid;
          message_count := n;
          created_at := default PNone (session !! "created_at");
          last_updated := default PNone (session !! "last_updated") |}.

Definition get_session_info (sid : string) (m : manager)
    : http session_info * manager :=
  match session_info_body sid m with
  | (Ok info, m') => (Reply info, m')
  | (Raise e, m') =>
      (HTTPException 404 ("Session not found: " +:+ exn_text e), m')
  end.

End Endpoints.

End Backend.

(* ===================================================================== *)
(** ** Stand-ins for the library code *)
(* ===================================================================== *)

(** Concrete values for the parameters of the sections above, on which the
    program can be run: a clock that advances by one millisecond per
    reading, a timestamp notation (the decimal numeral of the instant) with
    its parser, a completion API that gives one fixed answer, and a
    [json.loads] that knows one text. *)
Module Stub.

Import SessionManager.

Definition clock (n : nat) : Z := (1000 * Z.of_nat n)%Z.

Definition isoformat (t : Z) : string :=
  DecimalString.NilEmpty.string_of_int (Z.to_int t).

Definition fromisoformat (s : string) : option datetime :=
  match DecimalString.NilEmpty.int_of_string s with
  | Some d => Some (Aware (Z.of_int d))
  | None => None
  end.

Definition complete (answer : result string) : Agent.request → result string :=
  λ _, answer.

Definition json_loads (parsed : option pyval) : string → option pyval :=
  λ _, parsed.

(** A gateway that answers with the request it was sent: the mode, the
    token limit, then one entry for each message. *)
Definition shown (v : pyval) : string :=
  match v with
  | PStr s => s
  | PInt z => pretty z
  | _ => "?"
  end.

Definition echo (r : Agent.request) : result string :=
  Ok (String.concat "|"
        (((if Agent.req_json_mode r then "json" else "text")
          +:+ "/" +:+ pretty (Agent.req_max_tokens r))
         :: ((λ msg, Agent.role msg +:+ ":" +:+ shown (Agent.content msg))
             <$> Agent.req_messages r))).

(** A completion API that answers the classifier's request with one text
    and the generator's request with another, and a [json.loads] that
    parses the first. *)
Definition scripted_complete (classification reply : string)
    : Agent.request → result string :=
  λ req, if Agent.req_json_mode req then Ok classification else Ok reply.

Definition scripted_loads (classification : string) (parsed : pyval)
    : string → option pyval :=
  λ s, if String.eqb s classification then Some parsed else None.

Definition timeout : exn := Exn OtherError "Request timed out.".

(** The classifier's answer for a destination question. *)
Definition destination_payload : pyval :=
  PDict (<["intent" := PStr "destination_inquiry"]>
          (<["confidence" := PFloat (FNum (9 # 10))]>
            (<["key_entities" := PList [PStr "Japan"]]> ∅))).



Definition empty_manager : manager := {| sessions := ∅; ticks := 0 |}.

Definition blank : Agent.wstate :=
  {| Agent.current_message := Some "What's a good 5-day trip to Japan?";
     Agent.session_id := Some "s1";
     Agent.conversation_history := Some [];
     Agent.intent := None; Agent.entities := None;
     Agent.confidence := None; Agent.response := None |}.

(** A store with one session, "s1", created at the first two readings of
    the clock, that holds one preference and one message. *)
Definition s1_record : pydict :=
  <["travel_context" := PDict ∅]>
    (<["user_preferences" := PDict {["language" := PStr "en"]}]>
      (<["messages" :=
           PList [PDict (<["role" := PStr "user"]>
                          {["content" := PStr "Hello"]})]]>
        (<["last_updated" := PStr (isoformat (clock 1))]>
          {["created_at" := PStr (isoformat (clock 0))]}))).

Definition one_session : manager :=
  {| sessions := {["s1" := s1_record]}; ticks := 2 |}.

(** A store whose only record has no [last_updated]. *)
Definition unstamped_record : pydict := {["messages" := PList []]}.

Definition unstamped : manager :=
  {| sessions := {["a" := unstamped_record]}; ticks := 0 |}.

(** A store whose only record has the number 5 as [last_updated]. *)
Definition numbered : manager :=
  {| sessions := {["a" := {["last_updated" := PInt 5]}]}; ticks := 0 |}.

(** Ten earlier turns, numbered, and a state that carries them. *)
Definition ten_turns : list Agent.message :=
  (λ n, Agent.Message (if Nat.even n then "user" else "assistant")
                      (PInt (Z.of_nat n))) <$> seq 0 10.

Definition after_ten_turns : Agent.wstate :=
  {| Agent.current_message := Some "And in autumn?";
     Agent.session_id := Some "s1";
     Agent.conversation_history := Some ten_turns;
     Agent.intent := Some (PStr "dining"); Agent.entities := Some (PList []);
     Agent.confidence := Some (PFloat (FNum (8 # 10)));
     Agent.response := None |}.

(** A state as the generator leaves it for a destination question. *)
Definition generated : Agent.wstate :=
  {| Agent.current_message := Some "What's a good 5-day trip to Japan?";
     Agent.session_id := Some "s1";
     Agent.conversation_history := Some [];
     Agent.intent := Some (PStr "destination_inquiry");
     Agent.entities := Some (PList [PStr "Japan"]);
     Agent.confidence := Some (PFloat (FNum (8 # 10)));
     Agent.response := Some "Try Kyoto." |}.

End Stub.

(* ===================================================================== *)
(** ** States that differ in old turns only *)
(* ===================================================================== *)

Module Window.

Import Agent.



End Window.

(* ===================================================================== *)
(** ** The chat and clear endpoints ([backend.py]) *)
(* ===================================================================== *)

Module Chat.

Import SessionManager Backend.

(** The body of a [ChatResponse]. *)
Record chat_response := ChatResponse {
  reply_text : string;
  reply_session_id : string
}.

(** The dictionary [clear_conversation] returns. *)
Record status_reply := StatusReply {
  status : string;
  status_message : string
}.

(** The one-character strings a [for] loop over a string goes through. *)
Fixpoint characters (s : string) : list pyval :=
  match s with
  | EmptyString => []
  | String c rest => PStr (String c EmptyString) :: characters rest
  end.

(** What [for msg in v] goes through: the elements of a list, the
    characters of a string, the keys of a dictionary; any other object is
    not iterable. *)
Definition py_iter (v : pyval) : result (list pyval) :=
  match v with
  | PList l => Ok l
  | PStr s => Ok (characters s)
  | PDict d => Ok (PStr <$> (map_to_list d).*1)
  | _ => Raise (Exn TypeError
                  (sq +:+ type_name v +:+ "' object is not iterable"))
  end.

(** [v.extend(items)]: lists only. *)
Definition py_extend (v : pyval) (items : list pyval) : result pyval :=
  match v with
  | PList l => Ok (PList (l ++ items))
  | _ => Raise (no_attribute v "extend")
  end.

(** The two-key dictionary [{"role": r, "content": text}]. *)
Definition turn (r text : string) : pyval :=
  PDict (<["role" := PStr r]> {["content" := PStr text]}).

(** What a session holds under a key, if the session is there and has the
    key. *)
Definition field (m : manager) (sid key : string) : option pyval :=
  r ← sessions m !! sid; r !! key.

(** The dictionary a session holds under a key: the empty one when the
    session or the key is not there, none when the value is not a
    dictionary. *)
Definition dict_field (m : manager) (sid key : string) : option pydict :=
  match sessions m !! sid with
  | Some r =>
      match r !! key with
      | Some (PDict d) => Some d
      | None => Some ∅
      | Some _ => None
      end
  | None => Some ∅
  end.

Section Endpoints.

Variable clock : nat → Z.
Variable isoformat : Z → string.
Variable complete : Agent.request → result string.
Variable json_loads : string → option pyval.

(** [travel_agent.process_message] on whatever the session holds under
    [messages]: [None] is replaced by the empty list, and an object that
    cannot be iterated raises inside the [try] of [process_message]. *)
Definition process_history (message sid : string) (history : pyval) : string :=
  match history with
  | PNone => Agent.process_message complete json_loads message sid None
  | _ =>
      match py_iter history with
      | Ok items =>
          Agent.process_message complete json_loads message sid (Some items)
      | Raise e => Agent.apology e
      end
  end.

(** The body of the [try] block of [chat]. *)
Definition chat_body (message sid : string) : M chat_response :=
  session ← get_session clock isoformat sid;
  let response :=
    process_history message sid (default (PList []) (session !! "messages")) in
  _ ← (if bool_decide (session !! "messages" = None)
       then set_field sid "messages" (PList [])
       else mret () : M unit);
  session ← read_session sid;
  stored ← lift (py_item session "messages");
  extended ← lift (py_extend stored [turn "user" message;
                                     turn "assistant" response]);
  _ ← set_field sid "messages" extended;
  session ← read_session sid;
  _ ← update_session clock isoformat sid session;
  mret {| reply_text := response; reply_session_id := sid |}.

Definition chat (message sid : string) (m : manager)
    : http chat_response * manager :=
  match chat_body message sid m with
  | (Ok r, m') => (Reply r, m')
  | (Raise e, m') =>
      (HTTPException 500 ("Error processing message: " +:+ exn_text e), m')
  end.

Definition clear_conversation (sid : string) (m : manager)
    : http status_reply * manager :=
  match clear_session clock isoformat sid m with
  | (Ok _, m') =>
      (Reply {| status := "success";
                status_message := "Conversation cleared" |}, m')
  | (Raise e, m') =>
      (HTTPException 500 ("Error clearing conversation: " +:+ exn_text e), m')
  end.

(** The list a session holds under [messages], when it is one; a session
    that is not there, or has no such key, holds none. *)
Definition transcript (m : manager) (sid : string) : option (list pyval) :=
  match sessions m !! sid with
  | Some r =>
      match r !! "messages" with
      | Some (PList l) => Some l
      | None => Some []
      | Some _ => None
      end
  | None => Some []
  end.

End Endpoints.

End Chat.

(* ===================================================================== *)
(** ** Properties of the conversation workflow *)
(* ===================================================================== *)

Module AgentFacts.

Import Agent.

Lemma append_all_app (messages history : list message) :
  append_all messages history = messages ++ history.
Proof.
  unfold append_all. revert messages.
  induction history as [|msg history IH]; intros messages; simpl.
  - by rewrite app_nil_r.
  - rewrite IH. by rewrite <- app_assoc.
Qed.

(** [l[-n:]] is a suffix of [l], of length [n] or the whole of a shorter
    list. *)
Lemma slice_last_suffix {A} (n : nat) (l : list A) :
  l = take (length l - n) l ++ slice_last n l
  ∧ length (slice_last n l) = n `min` length l.
Proof.
  unfold slice_last. split.
  - by rewrite take_drop.
  - rewrite length_drop. lia.
Qed.

Lemma general_travel_entry :
  system_prompts !! "general_travel" = Some general_travel_prompt.
Proof. reflexivity. Qed.

Lemma string_app_nil_r (s : string) : s +:+ "" = s.
Proof.
  induction s as [|c s IH]; [done |].
  change (String c (s +:+ "") = String c s). by rewrite IH.
Qed.

Lemma string_app_grows (s extra : string) : extra ≠ "" → s +:+ extra ≠ s.
Proof.
  intros Hne Heq. apply Hne.
  rewrite <- (string_app_nil_r s) in Heq at 2.
  by apply (inj (String.app s)) in Heq.
Qed.

Lemma followup_intents_banks (s : string) :
  s ∈ followup_intents →
  ∃ q1 q2 q3, followup_questions !! s = Some [q1; q2; q3].
Proof.
  unfold followup_intents. rewrite !elem_of_cons, elem_of_nil.
  intros [-> | [-> | [-> | []]]]; do 3 eexists; reflexivity.
Qed.

Lemma followup_text_two (q1 q2 q3 : string) :
  followup_text [q1; q2; q3]
  = followup_header +:+ bullet q1 +:+ nl +:+ bullet q2.
Proof. reflexivity. Qed.

(** C3. The message list the generator sends is the system message, then
    the last six entries of the history in their order, then the current
    user message; with a history of ten entries it has eight entries. The
    system message is the prompt the table gives for the intent, or the
    [general_travel] prompt when the intent is no key of the table,
    followed by the instruction suffix. An intent that cannot be hashed
    raises before anything is sent. *)
Theorem generator_outbound_messages
    (complete : request → result string) (st : wstate) :
  let prompts :=
    [ ("destination_inquiry", "You are an expert travel advisor specializing in destination recommendations. Provide detailed, personalized suggestions based on the user's preferences, including best times to visit, must-see attractions, and insider tips.");
      ("itinerary_planning", "You are a professional itinerary planner. Create detailed day-by-day plans with specific times, locations, and activities. Consider travel time between locations and practical logistics.");
      ("budget_planning", "You are a travel budget specialist. Provide detailed cost breakdowns for different travel styles (budget, mid-range, luxury) including accommodation, food, transportation, and activities.");
      ("accommodation", "You are a hotel and accommodation expert. Recommend specific places to stay based on budget, location preferences, and travel style. Include booking tips and alternatives.");
      ("transportation", "You are a transportation planning expert. Provide detailed advice on flights, ground transportation, and local travel options with specific recommendations and booking strategies.");
      ("dining", "You are a culinary travel expert. Recommend authentic local restaurants, must-try dishes, food markets, and dining experiences that showcase local culture.");
      ("requirements", "You are a travel documentation and requirements specialist. Provide accurate, up-to-date information about visas, passports, health requirements, and travel restrictions.");
      ("greeting", "You are a friendly travel planning assistant. Welcome the user warmly and explain how you can help them plan their perfect trip.");
      ("general_travel", "You are an experienced travel advisor. Provide helpful, practical travel advice and be ready to assist with any aspect of trip planning.") ] in
  let fallback :=
    "You are an experienced travel advisor. Provide helpful, practical travel advice and be ready to assist with any aspect of trip planning." in
  let suffix :=
    String "010" (String "010" "Always be enthusiastic, helpful, and provide actionable advice. If you need more information to give better recommendations, ask specific follow-up questions.") in
  let selected (prompt : string) : Prop :=
    match intent st with
    | Some (PStr s) =>
        (s, prompt) ∈ prompts ∨ ((s ∉ prompts.*1) ∧ prompt = fallback)
    | Some (PList _) | Some (PDict _) => False
    | _ => prompt = fallback
    end in
  let history := default [] (conversation_history st) in
  let user := Message "user" (PStr (default "" (current_message st))) in
  (∀ prompt,
     selected prompt →
     ∃ older window,
       history = older ++ window
       ∧ length window = 6 `min` length history
       ∧ generate_travel_response complete st
         = match complete
                   (Request ([Message "system" (PStr (prompt +:+ suffix))]
                             ++ window ++ [user]) false 800) with
           | Ok text =>
               Ok {| current_message := current_message st;
                     session_id := session_id st;
                     conversation_history := conversation_history st;
                     intent := intent st;
                     entities := entities st;
                     confidence := confidence st;
                     response := Some text |}
           | Raise e => Raise e
           end
       ∧ (length history = 10 →
          length ([Message "system" (PStr (prompt +:+ suffix))]
                  ++ window ++ [user]) = 8))
  ∧ (∀ v,
       intent st = Some v →
       match v with PList _ | PDict _ => True | _ => False end →
       ∃ e, generate_travel_response complete st = Raise e
            ∧ exn_cls e = TypeError).
Proof.
  intros prompts fallback suffix selected history user.
  assert (Htable : ∀ prompt,
            selected prompt →
            select_system_prompt (get_intent st) = Ok prompt).
  { intros prompt. unfold selected, get_intent.
    destruct (intent st) as [[| | | |s| |]|]; cbv [from_option id];
      try (by intros ->); try done.
    unfold select_system_prompt. simpl. intros [Hin | [Hout ->]].
    - f_equal. revert Hin. unfold prompts.
      rewrite !elem_of_cons, elem_of_nil.
      intros [[= -> ->] | [[= -> ->] | [[= -> ->] | [[= -> ->]
             | [[= -> ->] | [[= -> ->] | [[= -> ->] | [[= -> ->]
             | [[= -> ->] | []]]]]]]]]]; reflexivity.
    - assert (system_prompts !! s = None) as ->; [| done].
      unfold system_prompts. apply not_elem_of_list_to_map_1. exact Hout. }
  split.
  - intros prompt Hsel. apply Htable in Hsel.
    destruct (slice_last_suffix 6 history) as [Hsplit Hlen].
    exists (take (length history - 6) history), (slice_last 6 history).
    split_and!; [done | done | | ].
    + unfold generate_travel_response. rewrite Hsel. simpl.
      unfold generator_messages. rewrite append_all_app.
      fold history user. by destruct (complete _).
    + intros H10. rewrite !length_app, Hlen, H10. reflexivity.
  - intros v Hv Hunhashable.
    unfold generate_travel_response, get_intent. rewrite Hv.
    destruct v; try done; eexists; split; reflexivity.
Qed.

Lemma generator_outbound_messages_witness :
  generate_travel_response Stub.echo Stub.after_ten_turns
  = Ok {| current_message := Some "And in autumn?";
          session_id := Some "s1";
          conversation_history := Some Stub.ten_turns;
          intent := Some (PStr "dining");
          entities := Some (PList []);
          confidence := Some (PFloat (FNum (8 # 10)));
          response :=
            Some ("text/800|system:You are a culinary travel expert. Recommend authentic local restaurants, must-try dishes, food markets, and dining experiences that showcase local culture."
                  +:+ String "010" (String "010" "Always be enthusiastic, helpful, and provide actionable advice. If you need more information to give better recommendations, ask specific follow-up questions.|user:4|assistant:5|user:6|assistant:7|user:8|assistant:9|user:And in autumn?")) |}.
Proof.
  destruct (generator_outbound_messages Stub.echo Stub.after_ten_turns)
    as [Hsent _].
  destruct (Hsent "You are a culinary travel expert. Recommend authentic local restaurants, must-try dishes, food markets, and dining experiences that showcase local culture.")
    as (older & window & Hsplit & Hlen & Hrun & _).
  - left. do 5 apply list_elem_of_further. apply list_elem_of_here.
  - assert (Hwindow : window = drop 4 Stub.ten_turns).
    { simpl in Hsplit, Hlen. rewrite Hsplit.
      assert (Holder : length older = 4).
      { apply (f_equal length) in Hsplit. rewrite length_app in Hsplit.
        simpl in Hsplit. lia. }
      by rewrite <- Holder, drop_app_length. }
    subst window. exact Hrun.
Defined.

(** The comparison [confidence > 0.7] on a number, in the rationals. *)
Lemma gt_float_number (c : pyval) :
  match c with
  | PBool b => gt_float c (7 # 10) = Ok b
  | PInt z => gt_float c (7 # 10) = Ok (bool_decide (1 ≤ z)%Z)
  | PFloat (FNum q) =>
      ∃ b, gt_float c (7 # 10) = Ok b ∧ (b = true ↔ (7 # 10 < q)%Q)
  | PFloat FInf => gt_float c (7 # 10) = Ok true
  | PFloat _ => gt_float c (7 # 10) = Ok false
  | _ => ∃ e, gt_float c (7 # 10) = Raise e ∧ exn_cls e = TypeError
  end.
Proof.
  destruct c as [|[]|z|[q| | |]| | |]; try reflexivity;
    try (eexists; split; reflexivity).
  - cbn [gt_float]. f_equal. unfold Qle_bool. simpl.
    destruct (bool_decide_reflect (1 ≤ z)%Z) as [H|H].
    + apply negb_true_iff, Z.leb_gt. lia.
    + apply negb_false_iff, Z.leb_le. lia.
  - cbn [gt_float]. eexists. split; [reflexivity |].
    rewrite negb_true_iff, <- not_true_iff_false, Qle_bool_iff.
    split; [apply Qnot_le_lt | apply Qlt_not_le].
Qed.

(** C1. After generation, the follow-up block is appended exactly when the
    intent is one of the three follow-up intents and the confidence exceeds
    0.7. The block is the fixed header and the first two questions of the
    intent's bank of three, one bulleted line each, put after the response
    text. Otherwise the response is left as it is; a confidence that is not
    a number makes the comparison raise, and nothing is appended either. *)
Theorem followup_iff (st : wstate) (g : string) :
  response st = Some g →
  let banks :=
    [ ("destination_inquiry",
        [ "What's your budget range for this trip?";
          "How many days are you planning to travel?";
          "What type of activities interest you most (adventure, culture, relaxation, nightlife)?" ]);
      ("itinerary_planning",
        [ "What's your preferred pace (packed schedule vs. relaxed)?";
          "Are there any specific must-see attractions on your list?";
          "What's your accommodation preference (location, style)?" ]);
      ("budget_planning",
        [ "What's your total budget range?";
          "Which expenses are most important to you (accommodation, food, activities)?";
          "Are you flexible with travel dates for better deals?" ]) ] in
  let block (q1 q2 : string) : string :=
    String "010" (String "010" "🤔 **To help you better, I'd love to know:**")
    +:+ String "010" "• " +:+ q1 +:+ String "010" "• " +:+ q2 in
  let exceeds (c : pyval) : Prop :=
    match c with
    | PFloat (FNum q) => (7 # 10 < q)%Q
    | PFloat FInf => True
    | PInt z => (7 # 10 < inject_Z z)%Q
    | PBool b => b = true
    | _ => False
    end in
  let number (c : pyval) : Prop :=
    match c with PFloat _ | PInt _ | PBool _ => True | _ => False end in
  (∀ s q1 q2 q3 c,
     (s, [q1; q2; q3]) ∈ banks →
     intent st = Some (PStr s) → confidence st = Some c → exceeds c →
     after_generation st
     = Ok {| current_message := current_message st;
             session_id := session_id st;
             conversation_history := conversation_history st;
             intent := intent st;
             entities := entities st;
             confidence := confidence st;
             response := Some (g +:+ block q1 q2) |}
     ∧ g +:+ block q1 q2 ≠ g)
  ∧ (∀ s bank c,
       (s, bank) ∈ banks →
       intent st = Some (PStr s) → confidence st = Some c →
       number c → ¬ exceeds c →
       after_generation st = Ok st)
  ∧ (∀ s bank c,
       (s, bank) ∈ banks →
       intent st = Some (PStr s) → confidence st = Some c → ¬ number c →
       ∃ e, after_generation st = Raise e ∧ exn_cls e = TypeError)
  ∧ (confidence st = None → after_generation st = Ok st)
  ∧ ((∀ s, intent st = Some (PStr s) →
        s ≠ "destination_inquiry" ∧ s ≠ "itinerary_planning"
        ∧ s ≠ "budget_planning") →
     after_generation st = Ok st).
Proof.
  intros Hresp banks block exceeds number.
  assert (Hasked : ∀ s bank, (s, bank) ∈ banks →
            in_followup_intents (PStr s) = true
            ∧ followup_questions !! s = Some bank).
  { intros s bank. unfold banks. rewrite !elem_of_cons, elem_of_nil.
    intros [[= -> ->] | [[= -> ->] | [[= -> ->] | []]]]; by split. }
  split_and!.
  - intros s q1 q2 q3 c Hin Hi Hc Hhigh.
    destruct (Hasked _ _ Hin) as [Hlist Hbank]. split.
    + change (after_generation st
              = Ok (set_response st (g +:+ block q1 q2))).
      unfold after_generation, should_ask_followup, get_intent,
        get_confidence.
      rewrite Hi, Hc. cbv [from_option id]. rewrite Hlist.
      assert (Hgt : gt_float c (7 # 10) = Ok true).
      { pose proof (gt_float_number c) as Hnum.
        destruct c as [|b|z|[q| | |]| | |]; simpl in Hhigh; try done.
        - by rewrite Hnum, Hhigh.
        - rewrite Hnum. f_equal. apply bool_decide_eq_true_2.
          unfold Qlt in Hhigh. simpl in Hhigh. lia.
        - destruct Hnum as (b & -> & Hb). f_equal. by apply Hb. }
      rewrite Hgt. simpl.
      unfold add_followup_questions, get_intent. rewrite Hi, Hresp.
      cbv [from_option id]. simpl. rewrite Hbank. simpl.
      reflexivity.
    + apply string_app_grows. discriminate.
  - intros s bank c Hin Hi Hc Hnum Hlow.
    destruct (Hasked _ _ Hin) as [Hlist _].
    unfold after_generation, should_ask_followup, get_intent,
      get_confidence.
    rewrite Hi, Hc. cbv [from_option id]. rewrite Hlist.
    assert (Hgt : gt_float c (7 # 10) = Ok false).
    { pose proof (gt_float_number c) as Hcase.
      destruct c as [|b|z|[q| | |]| | |]; simpl in Hnum, Hlow; try done.
      - rewrite Hcase. by destruct b.
      - rewrite Hcase. f_equal. apply bool_decide_eq_false_2.
        unfold Qlt in Hlow. simpl in Hlow. lia.
      - destruct Hcase as (b & -> & Hb). f_equal.
        destruct b; [| done]. destruct Hlow. by apply Hb. }
    by rewrite Hgt.
  - intros s bank c Hin Hi Hc Hnum.
    destruct (Hasked _ _ Hin) as [Hlist _].
    unfold after_generation, should_ask_followup, get_intent,
      get_confidence.
    rewrite Hi, Hc. cbv [from_option id]. rewrite Hlist.
    pose proof (gt_float_number c) as Hcase.
    destruct c as [|b|z|[q| | |]| | |]; simpl in Hnum; try (by destruct Hnum);
      destruct Hcase as (e & -> & Hcls); by exists e.
  - intros Hc.
    unfold after_generation, should_ask_followup, get_confidence.
    rewrite Hc. cbv [from_option id].
    by destruct (in_followup_intents _).
  - intros Hother.
    unfold after_generation, should_ask_followup, get_intent.
    destruct (intent st) as [[| | | |s| |]|]; try done.
    destruct (Hother s eq_refl) as (H1 & H2 & H3).
    cbv [from_option id]. unfold in_followup_intents, followup_intents.
    rewrite bool_decide_eq_false_2; [done |].
    rewrite !elem_of_cons, elem_of_nil. tauto.
Qed.

Lemma followup_iff_witness :
  after_generation Stub.generated
  = Ok {| current_message := Some "What's a good 5-day trip to Japan?";
          session_id := Some "s1";
          conversation_history := Some [];
          intent := Some (PStr "destination_inquiry");
          entities := Some (PList [PStr "Japan"]);
          confidence := Some (PFloat (FNum (8 # 10)));
          response :=
            Some ("Try Kyoto."
                  +:+ String "010" (String "010" "🤔 **To help you better, I'd love to know:**")
                  +:+ String "010" "• What's your budget range for this trip?"
                  +:+ String "010" "• How many days are you planning to travel?") |}
  ∧ let st :=
      {| current_message := Some "What's a good 5-day trip to Japan?";
         session_id := Some "s1";
         conversation_history := Some [];
         intent := Some (PStr "destination_inquiry");
         entities := Some (PList [PStr "Japan"]);
         confidence := Some (PFloat (FNum (7 # 10)));
         response := Some "Try Kyoto." |} in
    after_generation st = Ok st.
Proof.
  split.
  - destruct (followup_iff Stub.generated "Try Kyoto." eq_refl)
      as (Happended & _).
    apply (Happended "destination_inquiry"
             "What's your budget range for this trip?"
             "How many days are you planning to travel?"
             "What type of activities interest you most (adventure, culture, relaxation, nightlife)?"
             (PFloat (FNum (8 # 10)))).
    + apply list_elem_of_here.
    + reflexivity.
    + reflexivity.
    + reflexivity.
  - intros st.
    destruct (followup_iff st "Try Kyoto." eq_refl) as (_ & Hlow & _).
    apply (Hlow "destination_inquiry"
             [ "What's your budget range for this trip?";
               "How many days are you planning to travel?";
               "What type of activities interest you most (adventure, culture, relaxation, nightlife)?" ]
             (PFloat (FNum (7 # 10)))).
    + apply list_elem_of_here.
    + reflexivity.
    + reflexivity.
    + exact I.
    + intros Hhigh. discriminate Hhigh.
Defined.

(** With confidence 0.6 the response of the same state is left as it
    is. *)
Lemma low_confidence_no_followup :
  let st :=
    {| current_message := current_message Stub.generated;
       session_id := session_id Stub.generated;
       conversation_history := conversation_history Stub.generated;
       intent := intent Stub.generated;
       entities := entities Stub.generated;
       confidence := Some (PFloat (FNum (6 # 10)));
       response := response Stub.generated |} in
  after_generation st = Ok st.
Proof. reflexivity. Qed.

(** What the classifier stores for a parsed answer. *)
Lemma read_classification_cases
    (json_loads : string → option pyval) (st : wstate) (text : string) :
  try_except (read_classification json_loads st text)
             (λ _, default_classification st)
  = match json_loads text with
    | Some (PDict d) =>
        set_classification st
          (default (PStr "general_travel") (d !! "intent"))
          (default (PList []) (d !! "key_entities"))
          (default (PFloat (FNum (1 # 2))) (d !! "confidence"))
    | _ => default_classification st
    end.
Proof.
  unfold read_classification, loads.
  destruct (json_loads text) as [[| | | | | |d]|]; reflexivity.
Qed.




Lemma format_history_total (history : list pyval) :
  (∃ formatted, format_history history = Ok formatted)
  ∨ (∃ e, format_history history = Raise e).
Proof. destruct (format_history history); eauto. Qed.

Lemma set_response_response (st : wstate) (r : string) :
  response (set_response st r) = Some r.
Proof. reflexivity. Qed.



(** The scenario of a destination question: the classifier answers
    destination_inquiry with confidence 0.9, the generator answers
    "Try Kyoto.", and the caller gets that text with the two questions. *)
Lemma japan_trip :
  process_message
    (Stub.scripted_complete "classification" "Try Kyoto.")
    (Stub.scripted_loads "classification" Stub.destination_payload)
    "What's a good 5-day trip to Japan?" "s1" None
  = "Try Kyoto." +:+ nl +:+ nl
    +:+ "🤔 **To help you better, I'd love to know:**" +:+ nl
    +:+ "• What's your budget range for this trip?" +:+ nl
    +:+ "• How many days are you planning to travel?".
Proof. reflexivity. Qed.

(** An empty classifier answer gives the default classification, and the
    caller still gets the generator's text. *)
Lemma empty_classification :
  analyze_travel_intent (Stub.scripted_complete "" "Pack light.")
    (Stub.scripted_loads "classification" Stub.destination_payload) Stub.blank
  = Ok (default_classification Stub.blank)
  ∧ process_message (Stub.scripted_complete "" "Pack light.")
      (Stub.scripted_loads "classification" Stub.destination_payload)
      "What's a good 5-day trip to Japan?" "s1" None
    = "Pack light.".
Proof. split; reflexivity. Qed.


End AgentFacts.

(* ===================================================================== *)
(** ** Properties of the session store *)
(* ===================================================================== *)

Module StoreFacts.

Import SessionManager.

Section Equations.

Variable clock : nat → Z.
Variable isoformat : Z → string.

Lemma get_session_absent (m : manager) (sid : string) :
  sessions m !! sid = None →
  get_session clock isoformat sid m
  = (Ok (fresh_record clock isoformat (ticks m)),
     {| sessions := <[sid := fresh_record clock isoformat (ticks m)]> (sessions m);
        ticks := S (S (ticks m)) |}).
Proof.
  intros Hnone.
  unfold get_session, has_session, mbind, M_bind.
  rewrite Hnone. simpl.
  unfold read_session. simpl. by rewrite lookup_insert_eq.
Qed.

Lemma get_session_present (m : manager) (sid : string) (r : pydict) :
  sessions m !! sid = Some r →
  get_session clock isoformat sid m
  = (Ok (<["last_updated" := PStr (isoformat (clock (ticks m)))]> r),
     {| sessions :=
          <[sid := <["last_updated" := PStr (isoformat (clock (ticks m)))]> r]>
            (sessions m);
        ticks := S (ticks m) |}).
Proof.
  intros Hsome.
  unfold get_session, has_session, mbind, M_bind.
  rewrite Hsome. simpl.
  unfold set_field, read_session, mbind, M_bind. simpl.
  rewrite Hsome. simpl. by rewrite lookup_insert_eq.
Qed.

Lemma get_session_returns (m : manager) (sid : string) :
  ∃ r m', get_session clock isoformat sid m = (Ok r, m')
          ∧ sessions m' !! sid = Some r
          ∧ ∀ sid', sid' ≠ sid → sessions m' !! sid' = sessions m !! sid'.
Proof.
  destruct (sessions m !! sid) as [r|] eqn:Hsid.
  - eexists _, _. split; [by apply get_session_present |]. simpl.
    split; [by rewrite lookup_insert_eq |].
    intros sid' Hne. by rewrite lookup_insert_ne.
  - eexists _, _. split; [by apply get_session_absent |]. simpl.
    split; [by rewrite lookup_insert_eq |].
    intros sid' Hne. by rewrite lookup_insert_ne.
Qed.

Lemma update_session_present (m : manager) (sid : string)
    (r session_data : pydict) :
  sessions m !! sid = Some r →
  update_session clock isoformat sid session_data m
  = (Ok (),
     {| sessions :=
          <[sid := <["last_updated" := PStr (isoformat (clock (ticks m)))]>
                     session_data ∪ r]> (sessions m);
        ticks := S (ticks m) |}).
Proof.
  intros Hsome.
  unfold update_session, has_session, mbind, M_bind.
  rewrite Hsome. simpl. unfold read_session. simpl. by rewrite Hsome.
Qed.

Lemma update_session_absent (m : manager) (sid : string)
    (session_data : pydict) :
  sessions m !! sid = None →
  update_session clock isoformat sid session_data m
  = (Ok (),
     {| sessions :=
          <[sid := <["last_updated" := PStr (isoformat (clock (S (ticks m))))]>
                     (<["created_at" := PStr (isoformat (clock (ticks m)))]>
                        session_data)]> (sessions m);
        ticks := S (S (ticks m)) |}).
Proof.
  intros Hnone.
  unfold update_session, has_session, mbind, M_bind.
  by rewrite Hnone.
Qed.

Lemma clear_session_present (m : manager) (sid : string) (r : pydict) :
  sessions m !! sid = Some r →
  clear_session clock isoformat sid m
  = (Ok (),
     {| sessions :=
          <[sid := <["last_updated" := PStr (isoformat (clock (ticks m)))]>
                     (<["messages" := PList []]> r)]> (sessions m);
        ticks := S (ticks m) |}).
Proof.
  intros Hsome.
  unfold clear_session, has_session, mbind, M_bind.
  rewrite Hsome. simpl.
  unfold set_field, read_session, mbind, M_bind. simpl.
  rewrite Hsome. simpl. rewrite lookup_insert_eq. simpl.
  unfold write_session. simpl. by rewrite insert_insert_eq.
Qed.

Lemma clear_session_absent (m : manager) (sid : string) :
  sessions m !! sid = None →
  clear_session clock isoformat sid m = (Ok (), m).
Proof.
  intros Hnone.
  unfold clear_session, has_session, mbind, M_bind.
  by rewrite Hnone.
Qed.

Lemma delete_session_present (m : manager) (sid : string) (r : pydict) :
  sessions m !! sid = Some r →
  delete_session sid m
  = (Ok true, {| sessions := delete sid (sessions m); ticks := ticks m |}).
Proof.
  intros Hsome.
  unfold delete_session, has_session, del_session, mbind, M_bind.
  rewrite Hsome. simpl. by rewrite Hsome.
Qed.

Lemma delete_session_absent (m : manager) (sid : string) :
  sessions m !! sid = None → delete_session sid m = (Ok false, m).
Proof.
  intros Hnone.
  unfold delete_session, has_session, mbind, M_bind.
  by rewrite Hnone.
Qed.

(** C8. For a session in the store, [clear_session] empties its
    messages and sets [last_updated] to the reading of the clock; every
    other key of the record (the preferences, the travel context and
    [created_at] among them) and every other session keep their values.
    For an id that is not in the store it returns without an error and
    the store is the same. *)
Theorem clear_session_frame (m : manager) (sid : string) :
  (∀ r, sessions m !! sid = Some r →
     ∃ m' r',
       clear_session clock isoformat sid m = (Ok (), m')
       ∧ sessions m' !! sid = Some r'
       ∧ r' !! "messages" = Some (PList [])
       ∧ r' !! "last_updated" = Some (PStr (isoformat (clock (ticks m))))
       ∧ r' !! "user_preferences" = r !! "user_preferences"
       ∧ r' !! "travel_context" = r !! "travel_context"
       ∧ r' !! "created_at" = r !! "created_at"
       ∧ (∀ key, key ≠ "messages" → key ≠ "last_updated" →
                 r' !! key = r !! key)
       ∧ (∀ sid', sid' ≠ sid → sessions m' !! sid' = sessions m !! sid'))
  ∧ (sessions m !! sid = None →
     clear_session clock isoformat sid m = (Ok (), m)).
Proof.
  split; [| apply clear_session_absent].
  intros r Hsome. eexists _, _.
  split; [by apply clear_session_present |]. simpl.
  split; [by rewrite lookup_insert_eq |].
  assert (Hframe : ∀ key, key ≠ "messages" → key ≠ "last_updated" →
            <["last_updated" := PStr (isoformat (clock (ticks m)))]>
              (<["messages" := PList []]> r) !! key = r !! key).
  { intros key H1 H2. by rewrite !lookup_insert_ne. }
  split_and!; try (by apply Hframe).
  - rewrite lookup_insert_ne by done. by rewrite lookup_insert_eq.
  - by rewrite lookup_insert_eq.
  - intros sid' Hne. by rewrite lookup_insert_ne.
Qed.

Lemma insert_union_self (r : pydict) (key : string) (v : pyval) :
  <[key := v]> r ∪ r = <[key := v]> r.
Proof.
  apply map_eq. intros k. rewrite lookup_union.
  destruct (decide (key = k)) as [<- | Hne].
  - rewrite lookup_insert_eq. by destruct (r !! key).
  - rewrite lookup_insert_ne by done. by destruct (r !! k).
Qed.

Lemma run_bind {A B} (c : M A) (k : A → M B) (m : manager) :
  (c ≫= k) m
  = match c m with
    | (Ok a, m') => k a m'
    | (Raise e, m') => (Raise e, m')
    end.
Proof. reflexivity. Qed.

Lemma read_session_at (m : manager) (sid : string) (r : pydict) :
  sessions m !! sid = Some r → read_session sid m = (Ok r, m).
Proof. intros H. unfold read_session. by rewrite H. Qed.

Lemma set_field_at (m : manager) (sid key : string) (v : pyval)
    (r : pydict) :
  sessions m !! sid = Some r →
  set_field sid key v m
  = (Ok (), {| sessions := <[sid := <[key := v]> r]> (sessions m);
               ticks := ticks m |}).
Proof.
  intros H. unfold set_field. rewrite run_bind, (read_session_at _ _ _ H).
  reflexivity.
Qed.

(** [get_session] leaves the preferences of every session as they
    were. *)
Lemma get_session_preferences (m m' : manager) (sid sid' : string)
    (r : pydict) :
  get_session clock isoformat sid m = (Ok r, m') →
  preferences m' sid' = preferences m sid'.
Proof.
  intros Hget. unfold preferences.
  destruct (sessions m !! sid) as [r0|] eqn:Hsid.
  - rewrite (get_session_present _ _ _ Hsid) in Hget.
    injection Hget as <- <-. simpl.
    destruct (decide (sid = sid')) as [<- | Hne].
    + rewrite lookup_insert_eq, Hsid. by rewrite lookup_insert_ne.
    + by rewrite lookup_insert_ne.
  - rewrite (get_session_absent _ _ Hsid) in Hget.
    injection Hget as <- <-. simpl.
    destruct (decide (sid = sid')) as [<- | Hne].
    + by rewrite lookup_insert_eq, Hsid.
    + by rewrite lookup_insert_ne.
Qed.

Lemma save_user_preference_spec (m : manager) (sid key : string)
    (value : pyval) (d : pydict) :
  preferences m sid = Some d →
  ∃ m' r',
    save_user_preference clock isoformat sid key value m = (Ok (), m')
    ∧ sessions m' !! sid = Some r'
    ∧ r' !! "user_preferences" = Some (PDict (<[key := value]> d))
    ∧ ∀ sid', sid' ≠ sid → sessions m' !! sid' = sessions m !! sid'.
Proof.
  intros Hprefs.
  destruct (get_session_returns m sid) as (r1 & m1 & Hget & Hsid1 & Hother).
  rewrite <- (get_session_preferences _ _ _ sid _ Hget) in Hprefs.
  unfold preferences in Hprefs. rewrite Hsid1 in Hprefs.
  unfold save_user_preference. rewrite run_bind, Hget. cbv beta iota.
  destruct (r1 !! "user_preferences") as [[| | | | | |d']|] eqn:Hup;
    try discriminate Hprefs; injection Hprefs as ->.
  - rewrite run_bind, bool_decide_eq_false_2 by done.
    unfold mret at 1, M_ret. cbv beta iota.
    rewrite run_bind, (read_session_at _ _ _ Hsid1). cbv beta iota.
    rewrite Hup.
    rewrite run_bind, (set_field_at _ _ _ _ _ Hsid1). cbv beta iota.
    rewrite run_bind, (read_session_at _ sid _ (lookup_insert_eq _ _ _)).
    cbv beta iota.
    rewrite (update_session_present _ sid _ _ (lookup_insert_eq _ _ _)).
    eexists _, _. split; [reflexivity |]. simpl.
    rewrite insert_union_self, !insert_insert_eq.
    split; [by rewrite lookup_insert_eq |].
    split.
    + rewrite lookup_insert_ne by done. by rewrite lookup_insert_eq.
    + intros sid' Hne. rewrite lookup_insert_ne by done. by apply Hother.
  - rewrite run_bind, bool_decide_eq_true_2 by done.
    rewrite (set_field_at _ _ _ _ _ Hsid1). cbv beta iota.
    rewrite run_bind, (read_session_at _ sid _ (lookup_insert_eq _ _ _)).
    cbv beta iota. rewrite lookup_insert_eq.
    rewrite run_bind, (set_field_at _ sid _ _ _ (lookup_insert_eq _ _ _)).
    cbv beta iota.
    rewrite run_bind, (read_session_at _ sid _ (lookup_insert_eq _ _ _)).
    cbv beta iota.
    rewrite (update_session_present _ sid _ _ (lookup_insert_eq _ _ _)).
    eexists _, _. split; [reflexivity |]. simpl.
    rewrite insert_union_self, !insert_insert_eq.
    split; [by rewrite lookup_insert_eq |].
    split.
    + rewrite lookup_insert_ne by done. by rewrite lookup_insert_eq.
    + intros sid' Hne. rewrite lookup_insert_ne by done. by apply Hother.
Qed.

Lemma get_user_preference_spec (m : manager) (sid key : string)
    (dflt : pyval) (d : pydict) :
  preferences m sid = Some d →
  ∃ m',
    get_user_preference clock isoformat sid key dflt m
    = (Ok (default dflt (d !! key)), m')
    ∧ preferences m' sid = Some d
    ∧ ∀ sid', sid' ≠ sid → sessions m' !! sid' = sessions m !! sid'.
Proof.
  intros Hprefs.
  destruct (get_session_returns m sid) as (r1 & m1 & Hget & Hsid1 & Hother).
  rewrite <- (get_session_preferences _ _ _ sid _ Hget) in Hprefs.
  exists m1. split_and!; [| done | done].
  unfold preferences in Hprefs. rewrite Hsid1 in Hprefs.
  unfold get_user_preference. rewrite run_bind, Hget. cbv beta iota.
  destruct (r1 !! "user_preferences") as [[| | | | | |d']|];
    try discriminate Hprefs; by injection Hprefs as ->.
Qed.

(** C10. In a store where the session's preferences, if any, are a
    dictionary: [save_user_preference] returns; reading the key back
    gives the saved value, whatever default is supplied; reading another
    key gives what the session held for it before, or the default when it
    held nothing; and no other session's record is changed by the save or
    by the read. *)
Theorem preference_roundtrip (m : manager) (sid key : string)
    (value : pyval) (d : pydict) :
  preferences m sid = Some d →
  ∃ m1,
    save_user_preference clock isoformat sid key value m = (Ok (), m1)
    ∧ (∀ sid', sid' ≠ sid → sessions m1 !! sid' = sessions m !! sid')
    ∧ ∀ key' dflt, ∃ m2,
        get_user_preference clock isoformat sid key' dflt m1
        = (Ok (if decide (key' = key) then value
               else default dflt (d !! key')), m2)
        ∧ (∀ sid', sid' ≠ sid → sessions m2 !! sid' = sessions m !! sid').
Proof.
  intros Hprefs.
  destruct (save_user_preference_spec m sid key value d Hprefs)
    as (m1 & r1 & Hsave & Hsid1 & Hup1 & Hother1).
  exists m1. split_and!; [done | done |].
  intros key' dflt.
  assert (Hprefs1 : preferences m1 sid = Some (<[key := value]> d)).
  { unfold preferences. by rewrite Hsid1, Hup1. }
  destruct (get_user_preference_spec m1 sid key' dflt _ Hprefs1)
    as (m2 & Hread & _ & Hother2).
  exists m2. split.
  - rewrite Hread. f_equal. f_equal.
    destruct (decide (key' = key)) as [-> | Hne].
    + by rewrite lookup_insert_eq.
    + by rewrite lookup_insert_ne.
  - intros sid' Hne. rewrite Hother2 by done. by apply Hother1.
Qed.

(** *** Rules for triples *)

Lemma hoare_bind {A B} (P : manager → Prop) (c : M A) (k : A → M B)
    (R : A → manager → Prop) (Q : B → manager → Prop) (E : manager → Prop) :
  hoare P c R E → (∀ a, hoare (R a) (k a) Q E) → hoare P (c ≫= k) Q E.
Proof.
  intros Hc Hk m HP. specialize (Hc m HP). rewrite run_bind.
  destruct (c m) as [[a|e] m']; [by apply Hk | done].
Qed.

Lemma hoare_ret {A} (a : A) (Q : A → manager → Prop) (E : manager → Prop) :
  hoare (Q a) (mret a) Q E.
Proof. intros m HQ. exact HQ. Qed.

Lemma hoare_raise {A} (e : exn) (Q : A → manager → Prop)
    (E : manager → Prop) :
  hoare E (raise e) Q E.
Proof. intros m HE. exact HE. Qed.

Lemma hoare_lift {A} (c : result A) (P : manager → Prop) :
  hoare P (lift c) (λ _, P) P.
Proof. intros m HP. unfold lift. by destruct c. Qed.

Lemma hoare_weaken {A} (P P' : manager → Prop) (c : M A)
    (Q Q' : A → manager → Prop) (E : manager → Prop) :
  hoare P' c Q' E → (∀ m, P m → P' m) → (∀ a m, Q' a m → Q a m) →
  hoare P c Q E.
Proof.
  intros Hc HP HQ m Hm. specialize (Hc m (HP m Hm)).
  destruct (c m) as [[a|e] m']; [by apply HQ | done].
Qed.

(** The store a triple's operation leaves satisfies the exceptional
    postcondition when the normal one implies it. *)
Lemma hoare_final {A} (P : manager → Prop) (c : M A) (E : manager → Prop)
    (m : manager) :
  hoare P c (λ _, E) E → P m → E (c m).2.
Proof.
  intros Hc HP. specialize (Hc m HP). by destruct (c m) as [[a|e] m'].
Qed.

End Equations.

Lemma clear_session_frame_witness :
  ∃ m' r',
    clear_session Stub.clock Stub.isoformat "s1" Stub.one_session = (Ok (), m')
    ∧ sessions m' !! "s1" = Some r'
    ∧ r' !! "messages" = Some (PList [])
    ∧ r' !! "last_updated" = Some (PStr "2000")
    ∧ r' !! "user_preferences" = Some (PDict {["language" := PStr "en"]})
    ∧ r' !! "created_at" = Some (PStr "0").
Proof.
  destruct (clear_session_frame Stub.clock Stub.isoformat Stub.one_session "s1")
    as [Hpresent _].
  destruct (Hpresent Stub.s1_record eq_refl)
    as (m' & r' & Hrun & Hsid & Hmsg & Hlu & Hprefs & _ & Hcreated & _).
  exists m', r'. split_and!; [done | done | done | | |].
  - exact Hlu.
  - rewrite Hprefs. reflexivity.
  - rewrite Hcreated. reflexivity.
Defined.

Lemma preference_roundtrip_witness :
  ∃ m1,
    save_user_preference Stub.clock Stub.isoformat "s1" "budget" (PStr "low")
      Stub.one_session = (Ok (), m1)
    ∧ sessions m1 !! "s2" = None
    ∧ (∃ m2, get_user_preference Stub.clock Stub.isoformat "s1" "budget" PNone m1
             = (Ok (PStr "low"), m2))
    ∧ (∃ m2, get_user_preference Stub.clock Stub.isoformat "s1" "language"
               PNone m1 = (Ok (PStr "en"), m2))
    ∧ (∃ m2, get_user_preference Stub.clock Stub.isoformat "s1" "pace"
               (PStr "relaxed") m1 = (Ok (PStr "relaxed"), m2)).
Proof.
  destruct (preference_roundtrip Stub.clock Stub.isoformat Stub.one_session
              "s1" "budget" (PStr "low") {["language" := PStr "en"]} eq_refl)
    as (m1 & Hsave & Hother & Hread).
  exists m1. split_and!; [done | by rewrite Hother | | |].
  - destruct (Hread "budget" PNone) as (m2 & H & _). by exists m2.
  - destruct (Hread "language" PNone) as (m2 & H & _). by exists m2.
  - destruct (Hread "pace" (PStr "relaxed")) as (m2 & H & _). by exists m2.
Defined.

Section Eviction.

Variable clock : nat → Z.
Variable fromisoformat : string → option datetime.

(** On a record whose [last_updated] is nothing, false or a string, one
    turn of the scanning loop decides as [evicted] says. *)
Lemma is_stale_scannable (cutoff_time : Z) (r : pydict) :
  scannable r →
  try_value_type (is_stale fromisoformat cutoff_time r) true
  = Ok (evicted fromisoformat cutoff_time r).
Proof.
  intros Hscan. unfold is_stale, evicted.
  destruct (r !! "last_updated") as [v|] eqn:Hv; [| reflexivity].
  simpl. destruct (truthy v) eqn:Htruthy.
  - destruct (Hscan v Hv Htruthy) as [s ->].
    simpl in Htruthy. apply negb_true_iff in Htruthy. rewrite Htruthy.
    by destruct (fromisoformat (replace_Z s)) as [[t|t]|].
  - destruct v as [| | | |s| |]; try reflexivity.
    simpl in Htruthy. apply negb_false_iff in Htruthy. by rewrite Htruthy.
Qed.

Lemma collect_stale_scannable (cutoff_time : Z)
    (items : list (string * pydict)) (acc : list string) :
  (∀ sid r, (sid, r) ∈ items → scannable r) →
  collect_stale fromisoformat cutoff_time items acc
  = Ok (acc ++ (filter (λ kv, evicted fromisoformat cutoff_time kv.2 = true)
                       items).*1).
Proof.
  revert acc. induction items as [|[sid r] items IH]; intros acc Hscan.
  - simpl. by rewrite app_nil_r.
  - simpl. rewrite (is_stale_scannable _ r) by (eapply Hscan; left).
    simpl. rewrite IH by (intros ???; eapply Hscan; by right).
    rewrite filter_cons. simpl.
    destruct (evicted fromisoformat cutoff_time r) eqn:Hev.
    + rewrite decide_True by done. simpl. by rewrite <- app_assoc.
    + rewrite decide_False by done. done.
Qed.

Lemma delete_all_spec (ids : list string) (m : manager) :
  NoDup ids →
  (∀ i, i ∈ ids → is_Some (sessions m !! i)) →
  ∃ s', delete_all ids m = (Ok (), {| sessions := s'; ticks := ticks m |})
        ∧ (∀ k, s' !! k = if decide (k ∈ ids) then None else sessions m !! k)
        ∧ size s' + length ids = size (sessions m).
Proof.
  revert m. induction ids as [|i ids IH]; intros m Hnodup Hin.
  - exists (sessions m). destruct m as [s n]. simpl. split_and!; [done | | lia].
    done.
  - apply NoDup_cons in Hnodup as [Hfresh Hnodup].
    destruct (Hin i) as [r Hr]; [left |].
    cbn [delete_all]. rewrite run_bind. unfold del_session at 1. rewrite Hr.
    cbv beta iota.
    destruct (IH {| sessions := delete i (sessions m); ticks := ticks m |}
                Hnodup) as (s' & Hrun & Hlookup & Hsize).
    { intros j Hj. simpl. rewrite lookup_delete_ne.
      - apply Hin. by right.
      - intros ->. done. }
    exists s'. split_and!.
    + exact Hrun.
    + intros k. rewrite Hlookup. simpl.
      destruct (decide (k = i)) as [-> | Hne].
      * rewrite lookup_delete_eq. rewrite (decide_True (P := i ∈ i :: ids)) by left.
        by destruct (decide (i ∈ ids)).
      * rewrite lookup_delete_ne by done.
        destruct (decide (k ∈ ids)) as [Hk | Hk].
        -- rewrite decide_True; [done | by right].
        -- rewrite decide_False; [done |].
           rewrite elem_of_cons. intros [? | ?]; done.
    + simpl in Hsize. rewrite map_size_delete_Some in Hsize by done.
      simpl. assert (0 < size (sessions m)).
      { destruct (decide (size (sessions m) = 0)) as [Hz | ?]; [| lia].
        apply map_size_empty_inv in Hz. rewrite Hz in Hr.
        by rewrite lookup_empty in Hr. }
      lia.
Qed.

(** The steps of [cleanup_old_sessions]: the clock is read, the horizon
    and the cutoff are computed outside the [try], the store is scanned,
    and only then are sessions deleted. *)
Lemma cleanup_steps (m : manager) (hours : Z) :
  cleanup_old_sessions clock fromisoformat hours m
  = match timedelta_hours hours with
    | Raise e => (Raise e, {| sessions := sessions m; ticks := S (ticks m) |})
    | Ok delta =>
        match datetime_sub (clock (ticks m)) delta with
        | Raise e =>
            (Raise e, {| sessions := sessions m; ticks := S (ticks m) |})
        | Ok cutoff_time =>
            match collect_stale fromisoformat cutoff_time
                    (map_to_list (sessions m)) [] with
            | Raise e =>
                (Raise e, {| sessions := sessions m; ticks := S (ticks m) |})
            | Ok ids =>
                match delete_all ids
                        {| sessions := sessions m; ticks := S (ticks m) |} with
                | (Ok _, m2) => (Ok (length ids), m2)
                | (Raise e, m2) => (Raise e, m2)
                end
            end
        end
    end.
Proof.
  unfold cleanup_old_sessions. rewrite run_bind. unfold now at 1.
  cbv beta iota. rewrite run_bind. unfold lift at 1.
  destruct (timedelta_hours hours) as [delta|e]; [| done].
  cbv beta iota. rewrite run_bind. unfold lift at 1. simpl ticks.
  destruct (datetime_sub (clock (ticks m)) delta) as [cutoff_time|e];
    [| done].
  cbv beta iota. rewrite run_bind. cbv beta iota.
  rewrite run_bind. unfold lift at 1. simpl sessions.
  destruct (collect_stale _ _ _ _) as [ids|e]; [| done].
  cbv beta iota. rewrite run_bind.
  by destruct (delete_all ids _) as [[[]|e] m2].
Qed.

(** A horizon of at most 999999999 days whose cutoff is a datetime. *)
Lemma cutoff_in_range (t hours : Z) :
  (-999999999 ≤ hours `div` 24 ≤ 999999999)%Z →
  (-62135596800000000 ≤ t - hours * 3600000000 ≤ 253402300799999999)%Z →
  timedelta_hours hours = Ok (hours * microseconds_per_hour)%Z
  ∧ datetime_sub t (hours * microseconds_per_hour)
    = Ok (t - hours * microseconds_per_hour)%Z.
Proof.
  intros Hdays Hrange. unfold timedelta_hours, datetime_sub.
  rewrite bool_decide_eq_true_2 by done.
  by rewrite bool_decide_eq_true_2 by done.
Qed.

(** C5, as the code has it. For a horizon of at most 999999999 days whose
    cutoff (the clock's reading minus the given hours) is a datetime, and a
    store in which every [last_updated] is nothing, a false value or a
    string, [cleanup_old_sessions] returns. It removes the records whose
    [last_updated] is a non-empty string that denotes an instant strictly
    before the cutoff, or that does not parse, or that has no UTC offset.
    Every other record stays as it is, a record with no [last_updated] or
    an empty one among them. The number returned is the number of records
    removed. *)
Theorem cleanup_old_sessions_spec (m : manager) (hours : Z) :
  (-999999999 ≤ hours `div` 24 ≤ 999999999)%Z →
  (-62135596800000000 ≤ clock (ticks m) - hours * 3600000000
   ≤ 253402300799999999)%Z →
  (∀ sid r, sessions m !! sid = Some r → scannable r) →
  let cutoff_time := (clock (ticks m) - hours * 3600000000)%Z in
  ∃ n m',
    cleanup_old_sessions clock fromisoformat hours m = (Ok n, m')
    ∧ (∀ sid,
         sessions m' !! sid
         = match sessions m !! sid with
           | Some r =>
               if evicted fromisoformat cutoff_time r then None else Some r
           | None => None
           end)
    ∧ (∀ sid r, sessions m !! sid = Some r →
         r !! "last_updated" = None ∨ r !! "last_updated" = Some (PStr "") →
         sessions m' !! sid = Some r)
    ∧ n + size (sessions m') = size (sessions m).
Proof.
  intros Hdays Hrange Hscan cutoff_time.
  destruct (cutoff_in_range (clock (ticks m)) hours Hdays Hrange)
    as [Hdelta Hcutoff].
  change (clock (ticks m) - hours * microseconds_per_hour)%Z
    with cutoff_time in Hcutoff.
  set (stale := (filter (λ kv, evicted fromisoformat cutoff_time kv.2 = true)
                        (map_to_list (sessions m))).*1).
  assert (Hmem : ∀ k, k ∈ stale ↔
            ∃ r, sessions m !! k = Some r
                 ∧ evicted fromisoformat cutoff_time r = true).
  { intros k. unfold stale. rewrite list_elem_of_fmap. split.
    - intros ([k' r] & -> & Hkr). apply list_elem_of_filter in Hkr as [Hev Hkr].
      apply elem_of_map_to_list in Hkr. by exists r.
    - intros (r & Hr & Hev). exists (k, r). split; [done |].
      apply list_elem_of_filter. split; [done |].
      by apply elem_of_map_to_list. }
  assert (Hnodup : NoDup stale).
  { unfold stale. apply (sublist_NoDup _ (map_to_list (sessions m)).*1).
    - apply NoDup_fst_map_to_list.
    - apply fmap_sublist, sublist_filter. }
  destruct (delete_all_spec stale
              {| sessions := sessions m; ticks := S (ticks m) |} Hnodup)
    as (s' & Hdel & Hlookup & Hsize).
  { intros i Hi. apply Hmem in Hi as (r & Hr & _). by exists r. }
  assert (Hfinal : ∀ sid,
            s' !! sid
            = match sessions m !! sid with
              | Some r =>
                  if evicted fromisoformat cutoff_time r then None else Some r
              | None => None
              end).
  { intros sid. rewrite Hlookup. simpl.
    destruct (decide (sid ∈ stale)) as [Hin | Hout].
    - apply Hmem in Hin as (r & -> & ->). done.
    - destruct (sessions m !! sid) as [r|] eqn:Hr; [| done].
      destruct (evicted fromisoformat cutoff_time r) eqn:Hev; [| done].
      destruct Hout. apply Hmem. by exists r. }
  exists (length stale), {| sessions := s'; ticks := S (ticks m) |}.
  split_and!.
  - rewrite cleanup_steps, Hdelta, Hcutoff.
    rewrite collect_stale_scannable.
    + simpl app. fold stale. by rewrite Hdel.
    + intros sid r Hin. apply elem_of_map_to_list in Hin. by eapply Hscan.
  - exact Hfinal.
  - intros sid r Hr Hblank. simpl. rewrite Hfinal, Hr.
    unfold evicted. by destruct Hblank as [-> | ->].
  - simpl. simpl in Hsize. lia.
Qed.

End Eviction.

(** A record with no [last_updated] is not removed, whatever the
    horizon: the scan of a store that holds only such a record removes
    nothing and returns 0. *)
Lemma cleanup_keeps_unstamped :
  Stub.unstamped_record !! "last_updated" = None
  ∧ ∃ m',
      cleanup_old_sessions Stub.clock Stub.fromisoformat 24 Stub.unstamped
      = (Ok 0, m')
      ∧ sessions m' !! "a" = Some Stub.unstamped_record.
Proof.
  split; [reflexivity |]. eexists. split; vm_compute; reflexivity.
Qed.

(** With a number as [last_updated] the scan raises, and the record is
    still there. *)
Lemma cleanup_raises_on_number :
  ∃ e m',
    cleanup_old_sessions Stub.clock Stub.fromisoformat 24 Stub.numbered
    = (Raise e, m')
    ∧ exn_cls e = AttributeError
    ∧ sessions m' = sessions Stub.numbered.
Proof. eexists _, _. split_and!; vm_compute; reflexivity. Qed.

(** A horizon of 18000000 hours, counted back from 1970, leaves the range
    of datetimes: the cleanup raises [OverflowError] and the store is as
    it was. *)
Lemma cleanup_overflow :
  cleanup_old_sessions Stub.clock Stub.fromisoformat 18000000 Stub.one_session
  = (Raise (Exn OverflowError "date value out of range"),
     {| sessions := sessions Stub.one_session; ticks := 3 |}).
Proof. vm_compute. reflexivity. Qed.

Lemma cleanup_old_sessions_spec_witness :
  ∃ n m',
    cleanup_old_sessions Stub.clock Stub.fromisoformat 0 Stub.one_session
    = (Ok n, m')
    ∧ sessions m' !! "s1" = None
    ∧ n + size (sessions m') = 1.
Proof.
  destruct (cleanup_old_sessions_spec Stub.clock Stub.fromisoformat
              Stub.one_session 0)
    as (n & m' & Hrun & Hlookup & _ & Hcount).
  - vm_compute. split; discriminate.
  - vm_compute. split; discriminate.
  - intros sid r Hr v Hv _. unfold Stub.one_session in Hr. simpl in Hr.
    apply lookup_singleton_Some in Hr as [_ <-].
    vm_compute in Hv. injection Hv as <-. by eexists.
  - exists n, m'. split_and!; [done | | done].
    rewrite Hlookup. reflexivity.
Defined.

Lemma stub_clock_monotone (i j : nat) :
  i ≤ j → (Stub.clock i ≤ Stub.clock j)%Z.
Proof. unfold Stub.clock. lia. Qed.

Lemma stub_parse_isoformat (t : Z) :
  Stub.fromisoformat (Stub.isoformat t) = Some (Aware t).
Proof.
  unfold Stub.fromisoformat, Stub.isoformat.
  rewrite DecimalString.NilEmpty.isi. by rewrite DecimalZ.of_to.
Qed.

Section Timed.

Variable clock : nat → Z.
Variable isoformat : Z → string.
Variable fromisoformat : string → option datetime.

(** The clock does not run backwards, and a timestamp written by
    [isoformat] is read back by [fromisoformat] as the same instant. *)
Hypothesis clock_monotone : ∀ i j, i ≤ j → (clock i ≤ clock j)%Z.
Hypothesis parse_isoformat :
  ∀ t, fromisoformat (isoformat t) = Some (Aware t).

Lemma stamp_insert_eq (r : pydict) (key : string) (t : Z) :
  stamp fromisoformat (<[key := PStr (isoformat t)]> r) key = Some t.
Proof. unfold stamp. by rewrite lookup_insert_eq, parse_isoformat. Qed.

Lemma stamp_insert_ne (r : pydict) (key key' : string) (v : pyval) :
  key' ≠ key →
  stamp fromisoformat (<[key' := v]> r) key = stamp fromisoformat r key.
Proof. intros Hne. unfold stamp. by rewrite lookup_insert_ne. Qed.

(** *** The timestamp invariant *)

Lemma record_inv_tick (i j : nat) (r : pydict) :
  i ≤ j →
  record_inv clock fromisoformat i r → record_inv clock fromisoformat j r.
Proof.
  intros Hij (c & u & Hc & Hu & Hcu & Hnow). exists c, u.
  split_and!; [done | done | done |].
  pose proof (clock_monotone i j Hij). lia.
Qed.

Lemma record_inv_insert_other (n : nat) (r : pydict) (key : string)
    (v : pyval) :
  key ≠ "created_at" → key ≠ "last_updated" →
  record_inv clock fromisoformat n r →
  record_inv clock fromisoformat n (<[key := v]> r).
Proof.
  intros H1 H2 (c & u & Hc & Hu & Hcu & Hnow). exists c, u.
  by rewrite !stamp_insert_ne.
Qed.

Lemma record_inv_refresh (n : nat) (r : pydict) :
  record_inv clock fromisoformat n r →
  record_inv clock fromisoformat n
    (<["last_updated" := PStr (isoformat (clock n))]> r).
Proof.
  intros (c & u & Hc & Hu & Hcu & Hnow). exists c, (clock n).
  rewrite stamp_insert_eq, stamp_insert_ne by done. done.
Qed.

Lemma record_inv_fresh (n : nat) :
  record_inv clock fromisoformat (S n) (fresh_record clock isoformat n).
Proof.
  exists (clock n), (clock (S n)). unfold fresh_record.
  rewrite !(stamp_insert_ne _ "last_updated") by done.
  rewrite !(stamp_insert_ne _ "created_at") by done.
  rewrite !stamp_insert_eq.
  pose proof (clock_monotone n (S n)). split_and!; [done | done | lia | lia].
Qed.

Lemma store_inv_tick (s : gmap string pydict) (i j : nat) :
  i ≤ j →
  store_inv clock fromisoformat {| sessions := s; ticks := i |} →
  store_inv clock fromisoformat {| sessions := s; ticks := j |}.
Proof.
  intros Hij Hinv sid r Hr. eapply record_inv_tick; [done |].
  by apply (Hinv sid).
Qed.

Lemma store_inv_insert (s : gmap string pydict) (n : nat) (sid : string)
    (r : pydict) :
  record_inv clock fromisoformat n r →
  store_inv clock fromisoformat {| sessions := s; ticks := n |} →
  store_inv clock fromisoformat {| sessions := <[sid := r]> s; ticks := n |}.
Proof.
  intros Hr Hinv sid' r' Hr'. simpl in *.
  destruct (decide (sid = sid')) as [<- | Hne].
  - rewrite lookup_insert_eq in Hr'. by injection Hr' as <-.
  - rewrite lookup_insert_ne in Hr' by done. by apply (Hinv sid').
Qed.

Lemma store_inv_subseteq (s s' : gmap string pydict) (n : nat) :
  s' ⊆ s →
  store_inv clock fromisoformat {| sessions := s; ticks := n |} →
  store_inv clock fromisoformat {| sessions := s'; ticks := n |}.
Proof.
  intros Hsub Hinv sid r Hr. apply (Hinv sid). simpl in *.
  by eapply lookup_weaken.
Qed.

Lemma store_inv_eta (m : manager) :
  store_inv clock fromisoformat m
  ↔ store_inv clock fromisoformat {| sessions := sessions m; ticks := ticks m |}.
Proof. by destruct m. Qed.

Lemma get_session_hoare (sid : string) :
  hoare (store_inv clock fromisoformat)
        (get_session clock isoformat sid)
        (λ r m', store_inv clock fromisoformat m'
                 ∧ sessions m' !! sid = Some r)
        (store_inv clock fromisoformat).
Proof.
  intros m Hinv. apply store_inv_eta in Hinv.
  destruct (sessions m !! sid) as [r|] eqn:Hsid.
  - rewrite (get_session_present _ _ _ _ _ Hsid).
    split; [| by simpl; rewrite lookup_insert_eq].
    apply (store_inv_tick _ (ticks m)); [lia |].
    apply store_inv_insert; [| done].
    apply record_inv_refresh. by apply (Hinv sid).
  - rewrite (get_session_absent _ _ _ _ Hsid).
    split; [| by simpl; rewrite lookup_insert_eq].
    apply store_inv_insert.
    + apply (record_inv_tick (S (ticks m))); [lia | apply record_inv_fresh].
    + apply (store_inv_tick _ (ticks m)); [lia | done].
Qed.

Lemma read_session_hoare (sid : string) :
  hoare (store_inv clock fromisoformat)
        (read_session sid)
        (λ r m', store_inv clock fromisoformat m'
                 ∧ sessions m' !! sid = Some r)
        (store_inv clock fromisoformat).
Proof.
  intros m Hinv. unfold read_session.
  by destruct (sessions m !! sid) as [r|] eqn:Hsid.
Qed.

Lemma set_field_hoare (sid key : string) (v : pyval) :
  key ≠ "created_at" → key ≠ "last_updated" →
  hoare (store_inv clock fromisoformat)
        (set_field sid key v)
        (λ _, store_inv clock fromisoformat)
        (store_inv clock fromisoformat).
Proof.
  intros H1 H2 m Hinv. unfold set_field. rewrite run_bind.
  unfold read_session.
  destruct (sessions m !! sid) as [r|] eqn:Hsid; [| done].
  unfold write_session. apply store_inv_eta in Hinv.
  apply store_inv_insert; [| done].
  apply record_inv_insert_other; [done | done |]. by apply (Hinv sid).
Qed.

(** C9. For an id the store does not hold, [get_session] returns a
    record with no messages, no preferences and no context, whose
    [created_at] and [last_updated] are the two readings of the clock
    taken during the call; [get_session] returns for every id and every
    store. A second call for the same id returns the stored record with
    the same [created_at] and a [last_updated] that is not earlier. *)
Theorem get_or_create (m : manager) (sid : string) :
  sessions m !! sid = None →
  (∀ m0 sid0, ∃ r0 m0', get_session clock isoformat sid0 m0 = (Ok r0, m0'))
  ∧ ∃ r1 m1 r2 m2 u1 u2,
      get_session clock isoformat sid m = (Ok r1, m1)
      ∧ sessions m1 !! sid = Some r1
      ∧ dom r1 = {["created_at"; "last_updated"; "messages";
                   "user_preferences"; "travel_context"]}
      ∧ r1 !! "messages" = Some (PList [])
      ∧ r1 !! "user_preferences" = Some (PDict ∅)
      ∧ r1 !! "travel_context" = Some (PDict ∅)
      ∧ r1 !! "created_at" = Some (PStr (isoformat (clock (ticks m))))
      ∧ r1 !! "last_updated" = Some (PStr (isoformat (clock (S (ticks m)))))
      ∧ get_session clock isoformat sid m1 = (Ok r2, m2)
      ∧ sessions m2 !! sid = Some r2
      ∧ r2 !! "created_at" = r1 !! "created_at"
      ∧ r2 !! "messages" = r1 !! "messages"
      ∧ stamp fromisoformat r1 "last_updated" = Some u1
      ∧ stamp fromisoformat r2 "last_updated" = Some u2
      ∧ (u1 ≤ u2)%Z.
Proof.
  intros Hnone. split.
  { intros m0 sid0.
    destruct (get_session_returns clock isoformat m0 sid0)
      as (r0 & m0' & H0 & _). eauto. }
  pose proof (get_session_absent clock isoformat m sid Hnone) as Hfirst.
  set (r1 := fresh_record clock isoformat (ticks m)) in *.
  set (m1 := {| sessions := <[sid := r1]> (sessions m);
                ticks := S (S (ticks m)) |}) in *.
  assert (Hsid1 : sessions m1 !! sid = Some r1) by apply lookup_insert_eq.
  pose proof (get_session_present clock isoformat m1 sid r1 Hsid1) as Hsecond.
  simpl in Hsecond.
  eexists r1, m1, _, _, (clock (S (ticks m))), (clock (S (S (ticks m)))).
  split_and!; try done.
  - simpl. by rewrite lookup_insert_eq.
  - unfold r1, fresh_record.
    rewrite !(stamp_insert_ne _ "last_updated") by done.
    apply stamp_insert_eq.
  - apply stamp_insert_eq.
  - apply clock_monotone. lia.
Qed.

(** [update_session] keeps the invariant when the record it is given
    carries no [created_at], or one that is not later than the clock. *)
Lemma update_session_hoare (sid : string) (session_data : pydict) :
  hoare (λ m, store_inv clock fromisoformat m
              ∧ admissible clock fromisoformat m
                  (OpUpdateSession sid session_data))
        (update_session clock isoformat sid session_data)
        (λ _, store_inv clock fromisoformat)
        (store_inv clock fromisoformat).
Proof.
  intros m [Hinv Hadm]. apply store_inv_eta in Hinv. simpl in Hadm.
  destruct (sessions m !! sid) as [r|] eqn:Hsid.
  - rewrite (update_session_present _ _ _ _ _ _ Hsid).
    apply (store_inv_tick _ (ticks m)); [lia |].
    apply store_inv_insert; [| done].
    destruct (Hinv sid r Hsid) as (c & u & Hc & Hu & Hcu & Hnow).
    destruct Hadm as [Hnone | (c' & Hc' & Hnow')]; [by eexists | |].
    + exists c, (clock (ticks m)). split_and!; [| | done | done].
      * unfold stamp in *. rewrite lookup_union_r; [done |].
        by rewrite lookup_insert_ne.
      * unfold stamp.
        rewrite (lookup_union_Some_l _ _ _
                   (PStr (isoformat (clock (ticks m))))).
        -- by rewrite parse_isoformat.
        -- by rewrite lookup_insert_eq.
    + exists c', (clock (ticks m)). split_and!; [| | done | done].
      * unfold stamp in *.
        destruct (session_data !! "created_at") as [v|] eqn:Hv; [| done].
        rewrite (lookup_union_Some_l _ _ _ v); [done |].
        by rewrite lookup_insert_ne.
      * unfold stamp.
        rewrite (lookup_union_Some_l _ _ _
                   (PStr (isoformat (clock (ticks m))))).
        -- by rewrite parse_isoformat.
        -- by rewrite lookup_insert_eq.
  - rewrite (update_session_absent _ _ _ _ _ Hsid).
    apply store_inv_insert.
    + exists (clock (ticks m)), (clock (S (ticks m))).
      rewrite stamp_insert_eq, stamp_insert_ne, stamp_insert_eq by done.
      pose proof (clock_monotone (ticks m) (S (ticks m))).
      pose proof (clock_monotone (ticks m) (S (S (ticks m)))).
      split_and!; [done | done | lia | lia].
    + apply (store_inv_tick _ (ticks m)); [lia | done].
Qed.

(** A record read from the store may be given back to
    [update_session]. *)
Lemma stored_record_admissible (m : manager) (sid : string) (r : pydict) :
  store_inv clock fromisoformat m → sessions m !! sid = Some r →
  admissible clock fromisoformat m (OpUpdateSession sid r).
Proof.
  intros Hinv Hsid _. right.
  destruct (Hinv sid r Hsid) as (c & u & Hc & Hu & Hcu & Hnow). by exists c.
Qed.

Lemma clear_session_inv (m : manager) (sid : string) :
  store_inv clock fromisoformat m →
  store_inv clock fromisoformat (clear_session clock isoformat sid m).2.
Proof.
  intros Hinv. destruct (sessions m !! sid) as [r|] eqn:Hsid.
  - rewrite (clear_session_present _ _ _ _ _ Hsid). simpl.
    apply store_inv_eta in Hinv.
    apply (store_inv_tick _ (ticks m)); [lia |].
    apply store_inv_insert; [| done]. apply record_inv_refresh.
    apply record_inv_insert_other; [done | done |]. by apply (Hinv sid).
  - by rewrite (clear_session_absent _ _ _ _ Hsid).
Qed.

Lemma delete_session_inv (m : manager) (sid : string) :
  store_inv clock fromisoformat m →
  store_inv clock fromisoformat (delete_session sid m).2.
Proof.
  intros Hinv. destruct (sessions m !! sid) as [r|] eqn:Hsid.
  - rewrite (delete_session_present _ _ _ Hsid). simpl.
    apply store_inv_eta in Hinv.
    eapply store_inv_subseteq; [| done]. apply delete_subseteq.
  - by rewrite (delete_session_absent _ _ Hsid).
Qed.

Lemma delete_all_subseteq (ids : list string) (m : manager) :
  sessions (delete_all ids m).2 ⊆ sessions m
  ∧ ticks (delete_all ids m).2 = ticks m.
Proof.
  revert m. induction ids as [|i ids IH]; intros m; [done |].
  cbn [delete_all]. rewrite run_bind. unfold del_session.
  destruct (sessions m !! i) as [r|] eqn:Hi; [| by split].
  destruct (IH {| sessions := delete i (sessions m); ticks := ticks m |})
    as [Hsub Hticks].
  split; [| done]. etrans; [exact Hsub |]. apply delete_subseteq.
Qed.

Lemma cleanup_old_sessions_inv (m : manager) (hours : Z) :
  store_inv clock fromisoformat m →
  store_inv clock fromisoformat
    (cleanup_old_sessions clock fromisoformat hours m).2.
Proof.
  intros Hinv. apply store_inv_eta in Hinv.
  assert (Hnext : store_inv clock fromisoformat
                    {| sessions := sessions m; ticks := S (ticks m) |}).
  { apply (store_inv_tick _ (ticks m)); [lia | done]. }
  rewrite cleanup_steps.
  destruct (timedelta_hours hours) as [delta|e]; [| done].
  destruct (datetime_sub _ _) as [cutoff_time|e]; [| done].
  destruct (collect_stale _ _ _ _) as [ids|e]; [| done].
  pose proof (delete_all_subseteq ids
                {| sessions := sessions m; ticks := S (ticks m) |})
    as [Hsub Hticks].
  destruct (delete_all ids _) as [[[]|e] [s' n']]; simpl in *; subst n';
    by eapply store_inv_subseteq.
Qed.

Lemma save_user_preference_hoare (sid key : string) (value : pyval) :
  hoare (store_inv clock fromisoformat)
        (save_user_preference clock isoformat sid key value)
        (λ _, store_inv clock fromisoformat)
        (store_inv clock fromisoformat).
Proof.
  unfold save_user_preference.
  eapply hoare_bind; [apply get_session_hoare |]. intros session.
  eapply (hoare_bind _ _ _ (λ _, store_inv clock fromisoformat)).
  { eapply hoare_weaken with (P' := store_inv clock fromisoformat)
                             (Q' := λ _, store_inv clock fromisoformat);
      [| by intros ? [? ?] | done].
    destruct (bool_decide _); [by apply set_field_hoare |].
    apply (hoare_ret () (λ _, store_inv clock fromisoformat)). }
  intros _.
  eapply hoare_bind; [apply read_session_hoare |]. intros session1.
  eapply (hoare_bind _ _ _ (λ _, store_inv clock fromisoformat)).
  { eapply hoare_weaken with (P' := store_inv clock fromisoformat)
                             (Q' := λ _, store_inv clock fromisoformat);
      [| by intros ? [? ?] | done].
    destruct (session1 !! "user_preferences") as [[| | | | | |prefs]|];
      try apply hoare_raise.
    by apply set_field_hoare. }
  intros _.
  eapply hoare_bind; [apply read_session_hoare |]. intros session2.
  eapply hoare_weaken; [apply update_session_hoare | | done].
  intros m [Hinv Hsid]. split; [done |]. by apply stored_record_admissible.
Qed.

Lemma save_travel_context_hoare (sid : string) (context : pydict) :
  hoare (store_inv clock fromisoformat)
        (save_travel_context clock isoformat sid context)
        (λ _, store_inv clock fromisoformat)
        (store_inv clock fromisoformat).
Proof.
  unfold save_travel_context.
  eapply hoare_bind; [apply get_session_hoare |]. intros session.
  eapply (hoare_bind _ _ _ (λ _, store_inv clock fromisoformat)).
  { eapply hoare_weaken with (P' := store_inv clock fromisoformat)
                             (Q' := λ _, store_inv clock fromisoformat);
      [| by intros ? [? ?] | done].
    destruct (bool_decide _); [by apply set_field_hoare |].
    apply (hoare_ret () (λ _, store_inv clock fromisoformat)). }
  intros _.
  eapply hoare_bind; [apply read_session_hoare |]. intros session1.
  eapply (hoare_bind _ _ _ (λ _, store_inv clock fromisoformat)).
  { eapply hoare_weaken with (P' := store_inv clock fromisoformat)
                             (Q' := λ _, store_inv clock fromisoformat);
      [| by intros ? [? ?] | done].
    destruct (session1 !! "travel_context") as [[| | | | | |ctx]|];
      try apply hoare_raise.
    by apply set_field_hoare. }
  intros _.
  eapply hoare_bind; [apply read_session_hoare |]. intros session2.
  eapply hoare_weaken; [apply update_session_hoare | | done].
  intros m [Hinv Hsid]. split; [done |]. by apply stored_record_admissible.
Qed.

Lemma get_user_preference_hoare (sid key : string) (dflt : pyval) :
  hoare (store_inv clock fromisoformat)
        (get_user_preference clock isoformat sid key dflt)
        (λ _, store_inv clock fromisoformat)
        (store_inv clock fromisoformat).
Proof.
  unfold get_user_preference.
  eapply hoare_bind; [apply get_session_hoare |]. intros session.
  eapply hoare_weaken; [apply hoare_lift | by intros ? [? ?] | done].
Qed.

Lemma get_travel_context_hoare (sid : string) :
  hoare (store_inv clock fromisoformat)
        (get_travel_context clock isoformat sid)
        (λ _, store_inv clock fromisoformat)
        (store_inv clock fromisoformat).
Proof.
  unfold get_travel_context.
  eapply hoare_bind; [apply get_session_hoare |]. intros session.
  eapply hoare_weaken;
    [apply (hoare_ret _ (λ _, store_inv clock fromisoformat)) | | done].
  by intros ? [? ?].
Qed.

(** C7, as the code has it. With a clock that does not run backwards, the
    empty store satisfies the invariant, and every store operation keeps it
    (whether it returns or raises): each record's [last_updated] is not
    earlier than its [created_at]. For [update_session] on a session that
    exists this needs the record supplied to carry no [created_at], or one
    that is not later than the clock. *)
Theorem store_invariant (m : manager) (op : store_op) :
  store_inv clock fromisoformat m →
  admissible clock fromisoformat m op →
  store_inv clock fromisoformat {| sessions := ∅; ticks := 0 |}
  ∧ store_inv clock fromisoformat (run_op clock isoformat fromisoformat op m)
  ∧ ∀ sid r,
      sessions (run_op clock isoformat fromisoformat op m) !! sid = Some r →
      ∃ c u, stamp fromisoformat r "created_at" = Some c
             ∧ stamp fromisoformat r "last_updated" = Some u
             ∧ (c ≤ u)%Z.
Proof.
  intros Hinv Hadm.
  assert (Hop : store_inv clock fromisoformat
                  (run_op clock isoformat fromisoformat op m)).
  { destruct op; simpl.
    - eapply hoare_final; [| exact Hinv].
      eapply hoare_weaken; [apply get_session_hoare | done |].
      by intros ?? [? ?].
    - eapply (hoare_final _ _ _ m); [apply update_session_hoare | done].
    - by apply clear_session_inv.
    - by apply delete_session_inv.
    - by apply cleanup_old_sessions_inv.
    - eapply hoare_final; [apply save_user_preference_hoare | done].
    - eapply hoare_final; [apply get_user_preference_hoare | done].
    - eapply hoare_final; [apply save_travel_context_hoare | done].
    - eapply hoare_final; [apply get_travel_context_hoare | done]. }
  split_and!; [| done |].
  - intros sid r Hr. simpl in Hr. by rewrite lookup_empty in Hr.
  - intros sid r Hr. destruct (Hop sid r Hr) as (c & u & Hc & Hu & Hcu & _).
    by exists c, u.
Qed.

End Timed.

Lemma stub_one_session_inv :
  store_inv Stub.clock Stub.fromisoformat Stub.one_session.
Proof.
  intros sid r Hr. unfold Stub.one_session in Hr. simpl in Hr.
  apply lookup_singleton_Some in Hr as [_ <-].
  exists 0%Z, 1000%Z. split_and!; [reflexivity | reflexivity | lia |].
  vm_compute. discriminate.
Qed.

Lemma store_invariant_witness :
  store_inv Stub.clock Stub.fromisoformat
    (run_op Stub.clock Stub.isoformat Stub.fromisoformat
       (OpSavePreference "s1" "budget" (PStr "low")) Stub.one_session).
Proof.
  apply (store_invariant Stub.clock Stub.isoformat Stub.fromisoformat
           stub_clock_monotone stub_parse_isoformat Stub.one_session
           (OpSavePreference "s1" "budget" (PStr "low"))
           stub_one_session_inv).
  exact Logic.I.
Defined.

(** Updating the session "s1" with a record that carries a [created_at]
    of its own leaves a record whose [last_updated] is earlier than its
    [created_at]. *)
Lemma update_session_breaks_invariant :
  store_inv Stub.clock Stub.fromisoformat Stub.one_session
  ∧ ∃ r,
      sessions (run_op Stub.clock Stub.isoformat Stub.fromisoformat
                  (OpUpdateSession "s1" {["created_at" := PStr "9000000"]})
                  Stub.one_session) !! "s1" = Some r
      ∧ stamp Stub.fromisoformat r "created_at" = Some 9000000%Z
      ∧ stamp Stub.fromisoformat r "last_updated" = Some 2000%Z
      ∧ ¬ (9000000 ≤ 2000)%Z.
Proof.
  split; [apply stub_one_session_inv |].
  eexists. split_and!.
  - simpl. rewrite (update_session_present _ _ _ _ Stub.s1_record) by done.
    simpl. apply lookup_insert_eq.
  - vm_compute. reflexivity.
  - vm_compute. reflexivity.
  - lia.
Qed.

Lemma get_or_create_witness :
  ∃ r1 m1 r2 m2 u1 u2,
    get_session Stub.clock Stub.isoformat "s2" Stub.one_session = (Ok r1, m1)
    ∧ r1 !! "created_at" = Some (PStr "2000")
    ∧ r1 !! "last_updated" = Some (PStr "3000")
    ∧ get_session Stub.clock Stub.isoformat "s2" m1 = (Ok r2, m2)
    ∧ r2 !! "created_at" = Some (PStr "2000")
    ∧ stamp Stub.fromisoformat r1 "last_updated" = Some u1
    ∧ stamp Stub.fromisoformat r2 "last_updated" = Some u2
    ∧ (u1 ≤ u2)%Z.
Proof.
  destruct (get_or_create Stub.clock Stub.isoformat Stub.fromisoformat
              stub_clock_monotone stub_parse_isoformat
              Stub.one_session "s2" eq_refl)
    as (_ & r1 & m1 & r2 & m2 & u1 & u2 & H1 & _ & _ & _ & _ & _ & Hc & Hu
        & H2 & Hs2 & Hc2 & _ & Hu1 & Hu2 & Hle).
  exists r1, m1, r2, m2, u1, u2.
  split_and!; [done | exact Hc | exact Hu | done | | done | done | done].
  rewrite Hc2. exact Hc.
Defined.

End StoreFacts.

(* ===================================================================== *)
(** ** The session-info endpoint on an id the store has not seen *)
(* ===================================================================== *)

Module BackendFacts.

Import SessionManager Backend.

(** For an id the store does not hold, the endpoint replies with a count
    of zero and the two timestamps of a record it has just created; the
    record is in the store afterwards. *)
Lemma session_info_of_unseen (clock : nat → Z) (isoformat : Z → string)
    (m : manager) (sid : string) :
  sessions m !! sid = None →
  get_session_info clock isoformat sid m
  = (Reply {| info_session_id := sid;
              message_count := 0;
              created_at := PStr (isoformat (clock (ticks m)));
              last_updated := PStr (isoformat (clock (S (ticks m)))) |},
     {| sessions := <[sid := fresh_record clock isoformat (ticks m)]> (sessions m);
        ticks := S (S (ticks m)) |}).
Proof.
  intros Hnone. unfold get_session_info, session_info_body.
  rewrite StoreFacts.run_bind,
    (StoreFacts.get_session_absent clock isoformat m sid Hnone).
  reflexivity.
Qed.

(** C6, on the code: asked about "never-seen" on an empty store, the
    endpoint does not answer 404. It replies with [message_count = 0], and
    the store then holds a record for "never-seen". *)
Theorem session_info_creates :
  ∃ m',
    get_session_info Stub.clock Stub.isoformat "never-seen" Stub.empty_manager
    = (Reply {| info_session_id := "never-seen";
                message_count := 0;
                created_at := PStr "0";
                last_updated := PStr "1000" |}, m')
    ∧ sessions Stub.empty_manager !! "never-seen" = None
    ∧ sessions m' !! "never-seen"
      = Some (fresh_record Stub.clock Stub.isoformat 0).
Proof.
  eexists. split; [| split].
  - by rewrite (session_info_of_unseen _ _ Stub.empty_manager "never-seen").
  - reflexivity.
  - simpl. by rewrite lookup_insert_eq.
Qed.

End BackendFacts.

(* ===================================================================== *)
(** ** Further properties of the session store *)
(* ===================================================================== *)

Module StoreMore.

Import SessionManager Chat.
Import StoreFacts.

Section Operations.

Variable clock : nat → Z.
Variable isoformat : Z → string.

(** X1. [delete_session] never raises and never reads the clock. It
    returns whether the id was in the store, the id is not in the store
    afterwards, every other session is as before, and the number of
    sessions drops by one exactly when it returns [True]; deleting the same
    id again returns [False]. *)
Theorem delete_session_effect (m : manager) (sid : string) :
  ∃ found m',
    delete_session sid m = (Ok found, m')
    ∧ found = bool_decide (is_Some (sessions m !! sid))
    ∧ sessions m' = delete sid (sessions m)
    ∧ ticks m' = ticks m
    ∧ size (sessions m') + (if found then 1 else 0) = size (sessions m)
    ∧ delete_session sid m' = (Ok false, m').
Proof.
  destruct (sessions m !! sid) as [r|] eqn:Hsid.
  - exists true, {| sessions := delete sid (sessions m); ticks := ticks m |}.
    split_and!; try done.
    + by apply delete_session_present with r.
    + simpl. rewrite map_size_delete_Some by done.
      assert (size (sessions m) ≠ 0); [| lia].
      intros Hz. apply map_size_empty_inv in Hz. rewrite Hz in Hsid.
      by rewrite lookup_empty in Hsid.
    + apply delete_session_absent. simpl. apply lookup_delete_eq.
  - exists false, m. rewrite (delete_session_absent _ _ Hsid).
    split_and!; try done. by rewrite delete_id.
Qed.

(** X2. After [delete_session], [get_session] for the same id starts
    again from an empty record: what the session held is gone, and
    [created_at] is the clock's reading at the new call. *)
Theorem delete_then_get_session (m : manager) (sid : string) :
  get_session clock isoformat sid (delete_session sid m).2
  = (Ok (fresh_record clock isoformat (ticks m)),
     {| sessions := <[sid := fresh_record clock isoformat (ticks m)]> (sessions m);
        ticks := S (S (ticks m)) |}).
Proof.
  destruct (delete_session_effect m sid)
    as (found & m' & Hdel & _ & Hs & Ht & _ & _).
  rewrite Hdel. simpl.
  rewrite get_session_absent by (rewrite Hs; apply lookup_delete_eq).
  by rewrite Hs, Ht, insert_delete_eq.
Qed.

(** X3. [update_session] never raises. For a session in the store, the
    keys of the record supplied replace the stored ones ([created_at]
    too), the keys it does not have are kept, and [last_updated] is the
    clock's reading whatever was supplied. For an id not in the store, the
    record supplied is stored with [created_at] and [last_updated] set from
    the clock, whatever was supplied for them. No other session changes. *)
Theorem update_session_merge (m : manager) (sid : string)
    (session_data : pydict) :
  ∃ m' r',
    update_session clock isoformat sid session_data m = (Ok (), m')
    ∧ sessions m' !! sid = Some r'
    ∧ delete sid (sessions m') = delete sid (sessions m)
    ∧ match sessions m !! sid with
      | Some r =>
          r' !! "last_updated" = Some (PStr (isoformat (clock (ticks m))))
          ∧ delete "last_updated" r'
            = delete "last_updated" (session_data ∪ r)
      | None =>
          r' !! "created_at" = Some (PStr (isoformat (clock (ticks m))))
          ∧ r' !! "last_updated"
            = Some (PStr (isoformat (clock (S (ticks m)))))
          ∧ delete "created_at" (delete "last_updated" r')
            = delete "created_at" (delete "last_updated" session_data)
      end.
Proof.
  destruct (sessions m !! sid) as [r|] eqn:Hsid.
  - rewrite (update_session_present _ _ _ _ _ _ Hsid).
    eexists _, _. split; [reflexivity |]. simpl.
    split; [by rewrite lookup_insert_eq |].
    split; [by rewrite delete_insert_eq |].
    split.
    + rewrite (lookup_union_Some_l _ _ _
                 (PStr (isoformat (clock (ticks m))))); [done |].
      by rewrite lookup_insert_eq.
    + apply map_eq. intros key.
      destruct (decide (key = "last_updated")) as [-> | Hne].
      * by rewrite !lookup_delete_eq.
      * rewrite !lookup_delete_ne by done. rewrite !lookup_union.
        by rewrite lookup_insert_ne.
  - rewrite (update_session_absent _ _ _ _ _ Hsid).
    eexists _, _. split; [reflexivity |]. simpl.
    split; [by rewrite lookup_insert_eq |].
    split; [by rewrite delete_insert_eq |].
    split_and!.
    + rewrite lookup_insert_ne by done. by rewrite lookup_insert_eq.
    + by rewrite lookup_insert_eq.
    + apply map_eq. intros key.
      destruct (decide (key = "created_at")) as [-> | Hc];
        [by rewrite !lookup_delete_eq |].
      rewrite !(lookup_delete_ne _ "created_at") by done.
      destruct (decide (key = "last_updated")) as [-> | Hu];
        [by rewrite !lookup_delete_eq |].
      rewrite !lookup_delete_ne by done. by rewrite !lookup_insert_ne.
Qed.

(** X4. Reading a session and giving the record read back to
    [update_session], as every caller in the program does, changes nothing
    in the record but [last_updated]. *)
Theorem update_with_own_record (m : manager) (sid : string) (r : pydict) :
  sessions m !! sid = Some r →
  (session ← get_session clock isoformat sid;
   update_session clock isoformat sid session) m
  = (Ok (),
     {| sessions :=
          <[sid := <["last_updated" := PStr (isoformat (clock (S (ticks m))))]> r]>
            (sessions m);
        ticks := S (S (ticks m)) |}).
Proof.
  intros Hsid. rewrite run_bind, (get_session_present _ _ _ _ _ Hsid).
  cbv beta iota.
  rewrite (update_session_present _ _ _ sid _ _ (lookup_insert_eq _ _ _)).
  simpl. by rewrite insert_union_self, !insert_insert_eq.
Qed.

(** *** Saving under a dictionary field *)

Lemma save_travel_context_record (m m1 : manager) (sid : string)
    (context d r1 : pydict) :
  get_session clock isoformat sid m = (Ok r1, m1) →
  sessions m1 !! sid = Some r1 →
  r1 !! "travel_context" = Some (PDict d)
  ∨ (r1 !! "travel_context" = None ∧ d = ∅) →
  save_travel_context clock isoformat sid context m
  = (Ok (),
     {| sessions :=
          <[sid := <["last_updated" := PStr (isoformat (clock (ticks m1)))]>
                     (<["travel_context" := PDict (context ∪ d)]> r1)]>
            (sessions m1);
        ticks := S (ticks m1) |}).
Proof.
  intros Hget Hsid1 Hfield.
  unfold save_travel_context. rewrite run_bind, Hget. cbv beta iota.
  destruct Hfield as [Hd | [Hnone ->]].
  - rewrite run_bind, bool_decide_eq_false_2 by (by rewrite Hd).
    unfold mret at 1, M_ret. cbv beta iota.
    rewrite run_bind, (read_session_at _ _ _ Hsid1). cbv beta iota.
    rewrite Hd.
    rewrite run_bind, (set_field_at _ _ _ _ _ Hsid1). cbv beta iota.
    rewrite run_bind, (read_session_at _ sid _ (lookup_insert_eq _ _ _)).
    cbv beta iota.
    rewrite (update_session_present _ _ _ sid _ _ (lookup_insert_eq _ _ _)).
    simpl. by rewrite insert_union_self, !insert_insert_eq.
  - rewrite run_bind, bool_decide_eq_true_2 by done.
    rewrite (set_field_at _ _ _ _ _ Hsid1). cbv beta iota.
    rewrite run_bind, (read_session_at _ sid _ (lookup_insert_eq _ _ _)).
    cbv beta iota. rewrite lookup_insert_eq.
    rewrite run_bind, (set_field_at _ sid _ _ _ (lookup_insert_eq _ _ _)).
    cbv beta iota.
    rewrite run_bind, (read_session_at _ sid _ (lookup_insert_eq _ _ _)).
    cbv beta iota.
    rewrite (update_session_present _ _ _ sid _ _ (lookup_insert_eq _ _ _)).
    simpl. by rewrite insert_union_self, !insert_insert_eq.
Qed.

Lemma save_user_preference_record (m m1 : manager) (sid key : string)
    (value : pyval) (d r1 : pydict) :
  get_session clock isoformat sid m = (Ok r1, m1) →
  sessions m1 !! sid = Some r1 →
  r1 !! "user_preferences" = Some (PDict d)
  ∨ (r1 !! "user_preferences" = None ∧ d = ∅) →
  save_user_preference clock isoformat sid key value m
  = (Ok (),
     {| sessions :=
          <[sid := <["last_updated" := PStr (isoformat (clock (ticks m1)))]>
                     (<["user_preferences" := PDict (<[key := value]> d)]> r1)]>
            (sessions m1);
        ticks := S (ticks m1) |}).
Proof.
  intros Hget Hsid1 Hfield.
  unfold save_user_preference. rewrite run_bind, Hget. cbv beta iota.
  destruct Hfield as [Hd | [Hnone ->]].
  - rewrite run_bind, bool_decide_eq_false_2 by (by rewrite Hd).
    unfold mret at 1, M_ret. cbv beta iota.
    rewrite run_bind, (read_session_at _ _ _ Hsid1). cbv beta iota.
    rewrite Hd.
    rewrite run_bind, (set_field_at _ _ _ _ _ Hsid1). cbv beta iota.
    rewrite run_bind, (read_session_at _ sid _ (lookup_insert_eq _ _ _)).
    cbv beta iota.
    rewrite (update_session_present _ _ _ sid _ _ (lookup_insert_eq _ _ _)).
    simpl. by rewrite insert_union_self, !insert_insert_eq.
  - rewrite run_bind, bool_decide_eq_true_2 by done.
    rewrite (set_field_at _ _ _ _ _ Hsid1). cbv beta iota.
    rewrite run_bind, (read_session_at _ sid _ (lookup_insert_eq _ _ _)).
    cbv beta iota. rewrite lookup_insert_eq.
    rewrite run_bind, (set_field_at _ sid _ _ _ (lookup_insert_eq _ _ _)).
    cbv beta iota.
    rewrite run_bind, (read_session_at _ sid _ (lookup_insert_eq _ _ _)).
    cbv beta iota.
    rewrite (update_session_present _ _ _ sid _ _ (lookup_insert_eq _ _ _)).
    simpl. by rewrite insert_union_self, !insert_insert_eq.
Qed.

(** What [get_session] leaves of a session: the record it returns is the
    stored one, the other sessions, the two dictionary fields and the
    transcript are as before. *)
Lemma get_session_view (m : manager) (sid : string) :
  ∃ r1 m1,
    get_session clock isoformat sid m = (Ok r1, m1)
    ∧ sessions m1 !! sid = Some r1
    ∧ delete sid (sessions m1) = delete sid (sessions m)
    ∧ dict_field m1 sid "user_preferences" = dict_field m sid "user_preferences"
    ∧ dict_field m1 sid "travel_context" = dict_field m sid "travel_context"
    ∧ transcript m1 sid = transcript m sid.
Proof.
  unfold dict_field, transcript.
  destruct (sessions m !! sid) as [r|] eqn:Hsid.
  - eexists _, _. split; [by apply get_session_present |]. simpl.
    rewrite lookup_insert_eq, delete_insert_eq.
    by rewrite !lookup_insert_ne.
  - eexists _, _. split; [by apply get_session_absent |]. simpl.
    rewrite lookup_insert_eq, delete_insert_eq. done.
Qed.

Lemma dict_field_at (m : manager) (sid key : string) (r d : pydict) :
  sessions m !! sid = Some r → dict_field m sid key = Some d →
  r !! key = Some (PDict d) ∨ (r !! key = None ∧ d = ∅).
Proof.
  unfold dict_field. intros -> H.
  destruct (r !! key) as [[| | | | | |d']|]; try discriminate H;
    injection H as <-; auto.
Qed.

Lemma preferences_dict_field (m : manager) (sid : string) :
  preferences m sid = dict_field m sid "user_preferences".
Proof. reflexivity. Qed.

(** X5. In a store where the session's travel context, if any, is a
    dictionary: [save_travel_context] returns, and [get_travel_context]
    then gives the context supplied merged over the one held before (keys
    not supplied keep their values). The session's preferences and
    transcript and every other session are as before. *)
Theorem travel_context_merge (m : manager) (sid : string)
    (context d : pydict) :
  dict_field m sid "travel_context" = Some d →
  ∃ m1 m2,
    save_travel_context clock isoformat sid context m = (Ok (), m1)
    ∧ get_travel_context clock isoformat sid m1
      = (Ok (PDict (context ∪ d)), m2)
    ∧ delete sid (sessions m1) = delete sid (sessions m)
    ∧ preferences m1 sid = preferences m sid
    ∧ transcript m1 sid = transcript m sid.
Proof.
  intros Hd.
  destruct (get_session_view m sid)
    as (r1 & m1 & Hget & Hsid1 & Hothers & Hprefs & Hctx & Htr).
  rewrite <- Hctx in Hd. rewrite <- Hothers, <- Htr.
  rewrite !preferences_dict_field, <- Hprefs.
  pose proof (dict_field_at _ _ _ _ _ Hsid1 Hd) as Hfield.
  rewrite (save_travel_context_record _ _ _ _ _ _ Hget Hsid1 Hfield).
  eexists _, _. split; [reflexivity |].
  split_and!.
  - unfold get_travel_context.
    rewrite run_bind, (get_session_present _ _ _ sid _ (lookup_insert_eq _ _ _)).
    cbv beta iota. rewrite lookup_insert_ne by done.
    rewrite lookup_insert_ne by done. by rewrite lookup_insert_eq.
  - simpl. by rewrite delete_insert_eq.
  - unfold preferences, dict_field. simpl. rewrite lookup_insert_eq, Hsid1.
    by rewrite !lookup_insert_ne.
  - unfold transcript. simpl. rewrite lookup_insert_eq, Hsid1.
    by rewrite !lookup_insert_ne.
Qed.

Lemma save_user_preference_view (m : manager) (sid key : string)
    (value : pyval) (d : pydict) :
  preferences m sid = Some d →
  ∃ m1,
    save_user_preference clock isoformat sid key value m = (Ok (), m1)
    ∧ preferences m1 sid = Some (<[key := value]> d)
    ∧ dict_field m1 sid "travel_context" = dict_field m sid "travel_context"
    ∧ transcript m1 sid = transcript m sid.
Proof.
  rewrite preferences_dict_field. intros Hd.
  destruct (get_session_view m sid)
    as (r1 & m1 & Hget & Hsid1 & Hothers & Hprefs & Hctx & Htr).
  rewrite <- Hprefs in Hd. rewrite <- Hctx, <- Htr.
  pose proof (dict_field_at _ _ _ _ _ Hsid1 Hd) as Hfield.
  rewrite (save_user_preference_record _ _ _ _ _ _ _ Hget Hsid1 Hfield).
  eexists. split; [reflexivity |].
  split_and!.
  - unfold preferences. simpl. rewrite lookup_insert_eq.
    rewrite lookup_insert_ne by done. by rewrite lookup_insert_eq.
  - unfold dict_field. simpl. rewrite lookup_insert_eq, Hsid1.
    by rewrite !lookup_insert_ne.
  - unfold transcript. simpl. rewrite lookup_insert_eq, Hsid1.
    by rewrite !lookup_insert_ne.
Qed.

(** X6. In a store where the session's preferences, if any, are a
    dictionary, [save_user_preference] changes nothing else that the
    session holds: its travel context and its transcript are as before. *)
Theorem save_user_preference_frame (m : manager) (sid key : string)
    (value : pyval) (d : pydict) :
  preferences m sid = Some d →
  ∃ m1,
    save_user_preference clock isoformat sid key value m = (Ok (), m1)
    ∧ dict_field m1 sid "travel_context" = dict_field m sid "travel_context"
    ∧ transcript m1 sid = transcript m sid.
Proof.
  intros Hd.
  destruct (save_user_preference_view m sid key value d Hd)
    as (m1 & Hsave & _ & Hctx & Htr).
  by exists m1.
Qed.

(** X7. Saving one preference after another keeps both: the session's
    preferences are the earlier ones with the two keys set, the second save
    winning when the keys are the same. *)
Theorem save_user_preference_twice (m : manager) (sid key1 key2 : string)
    (value1 value2 : pyval) (d : pydict) :
  preferences m sid = Some d →
  ∃ m1 m2,
    save_user_preference clock isoformat sid key1 value1 m = (Ok (), m1)
    ∧ save_user_preference clock isoformat sid key2 value2 m1 = (Ok (), m2)
    ∧ preferences m2 sid = Some (<[key2 := value2]> (<[key1 := value1]> d))
    ∧ (key1 = key2 →
       preferences m2 sid = Some (<[key2 := value2]> d)).
Proof.
  intros Hd.
  destruct (save_user_preference_view m sid key1 value1 d Hd)
    as (m1 & Hsave1 & Hd1 & _ & _).
  destruct (save_user_preference_view m1 sid key2 value2 _ Hd1)
    as (m2 & Hsave2 & Hd2 & _ & _).
  exists m1, m2. split_and!; [done | done | done |].
  intros ->. by rewrite Hd2, insert_insert_eq.
Qed.

(** X8. Reading from a session the store does not hold creates it:
    [get_user_preference] returns the default supplied and
    [get_travel_context] returns the empty dictionary, and either call
    leaves the store with one more session, a new empty record under that
    id. *)
Theorem reading_creates_session (m : manager) (sid key : string)
    (dflt : pyval) :
  sessions m !! sid = None →
  let created :=
    {| sessions := <[sid := fresh_record clock isoformat (ticks m)]> (sessions m);
       ticks := S (S (ticks m)) |} in
  get_user_preference clock isoformat sid key dflt m = (Ok dflt, created)
  ∧ get_travel_context clock isoformat sid m = (Ok (PDict ∅), created)
  ∧ get_session_count created = (Ok (S (size (sessions m))), created).
Proof.
  intros Hnone created. split_and!.
  - unfold get_user_preference.
    by rewrite run_bind, (get_session_absent _ _ _ _ Hnone).
  - unfold get_travel_context.
    by rewrite run_bind, (get_session_absent _ _ _ _ Hnone).
  - unfold get_session_count, created. simpl.
    by rewrite map_size_insert_None.
Qed.

(** X9. When a session holds under [user_preferences] something that is
    not a dictionary, [save_user_preference] raises [TypeError] and
    [get_user_preference] raises [AttributeError]; in both cases the value
    held is not replaced, and the only change to the store is the
    session's [last_updated]. *)
Theorem preferences_not_a_dictionary (m : manager) (sid key : string)
    (value dflt v : pyval) (r : pydict) :
  sessions m !! sid = Some r →
  r !! "user_preferences" = Some v →
  (∀ d, v ≠ PDict d) →
  let touched :=
    {| sessions :=
         <[sid := <["last_updated" := PStr (isoformat (clock (ticks m)))]> r]>
           (sessions m);
       ticks := S (ticks m) |} in
  save_user_preference clock isoformat sid key value m
  = (Raise (no_item_assignment v), touched)
  ∧ get_user_preference clock isoformat sid key dflt m
    = (Raise (no_attribute v "get"), touched)
  ∧ field touched sid "user_preferences" = Some v.
Proof.
  intros Hsid Hv Hnot touched. subst touched.
  pose proof (get_session_present clock isoformat m sid r Hsid) as Hget.
  set (touched :=
         {| sessions :=
              <[sid := <["last_updated" := PStr (isoformat (clock (ticks m)))]> r]>
                (sessions m);
            ticks := S (ticks m) |}) in *.
  assert (Hsid1 : sessions touched !! sid
                  = Some (<["last_updated" :=
                              PStr (isoformat (clock (ticks m)))]> r))
    by apply lookup_insert_eq.
  assert (Hv1 : <["last_updated" := PStr (isoformat (clock (ticks m)))]> r
                !! "user_preferences" = Some v)
    by (by rewrite lookup_insert_ne).
  split_and!.
  - unfold save_user_preference. rewrite run_bind, Hget. cbv beta iota.
    rewrite run_bind, bool_decide_eq_false_2 by (by rewrite Hv1).
    unfold mret at 1, M_ret. cbv beta iota.
    rewrite run_bind, (read_session_at _ _ _ Hsid1). cbv beta iota.
    rewrite Hv1. rewrite run_bind.
    destruct v as [| | | | | |d]; try reflexivity. by destruct (Hnot d).
  - unfold get_user_preference. rewrite run_bind, Hget. cbv beta iota.
    rewrite Hv1. simpl.
    destruct v as [| | | | | |d]; try reflexivity. by destruct (Hnot d).
  - unfold field. rewrite Hsid1. simpl. exact Hv1.
Qed.

(** X10. The number of sessions: [get_session] adds one exactly when the
    id is not in the store, and [clear_session] never changes it. *)
Theorem session_count_accounting (m : manager) (sid : string) :
  (get_session_count (get_session clock isoformat sid m).2).1
  = Ok (size (sessions m)
        + (if bool_decide (is_Some (sessions m !! sid)) then 0 else 1))
  ∧ (get_session_count (clear_session clock isoformat sid m).2).1
    = Ok (size (sessions m)).
Proof.
  unfold get_session_count.
  destruct (sessions m !! sid) as [r|] eqn:Hsid.
  - rewrite (get_session_present _ _ _ _ _ Hsid),
      (clear_session_present _ _ _ _ _ Hsid). simpl.
    rewrite !map_size_insert_Some by done.
    split; f_equal; lia.
  - rewrite (get_session_absent _ _ _ _ Hsid),
      (clear_session_absent _ _ _ _ Hsid). simpl.
    rewrite map_size_insert_None by done.
    split; f_equal; lia.
Qed.

End Operations.

Section Eviction.

Variable clock : nat → Z.
Variable isoformat : Z → string.
Variable fromisoformat : string → option datetime.

(** One turn of the scanning loop, on any record: it decides as [evicted]
    says, or raises [AttributeError]. *)
Lemma is_stale_outcome (cutoff_time : Z) (r : pydict) :
  match try_value_type (is_stale fromisoformat cutoff_time r) true with
  | Ok stale => stale = evicted fromisoformat cutoff_time r
  | Raise e => exn_cls e = AttributeError
  end.
Proof.
  unfold is_stale, evicted.
  destruct (r !! "last_updated") as [v|]; [| reflexivity]. simpl.
  destruct v as [|b|z|f|s|l|d]; simpl; try reflexivity.
  - by destruct b.
  - by destruct (negb (z =? 0)%Z).
  - destruct f as [q| | |]; try reflexivity.
    by destruct (negb (Qeq_bool q 0)).
  - destruct (String.eqb s ""); simpl; [reflexivity |].
    by destruct (fromisoformat (replace_Z s)) as [[t|t]|].
  - by destruct l.
  - by destruct (negb (bool_decide (d = ∅))).
Qed.

Lemma collect_stale_outcome (cutoff_time : Z)
    (items : list (string * pydict)) (acc : list string) :
  match collect_stale fromisoformat cutoff_time items acc with
  | Ok ids =>
      ids = acc ++ (filter (λ kv, evicted fromisoformat cutoff_time kv.2 = true)
                           items).*1
  | Raise e => exn_cls e = AttributeError
  end.
Proof.
  revert acc. induction items as [|[sid r] items IH]; intros acc.
  - simpl. by rewrite app_nil_r.
  - cbn [collect_stale]. pose proof (is_stale_outcome cutoff_time r) as Hone.
    destruct (try_value_type _ _) as [stale|e]; [| exact Hone].
    simpl. rewrite filter_cons. simpl. subst stale.
    specialize (IH (if evicted fromisoformat cutoff_time r
                    then acc ++ [sid] else acc)).
    destruct (collect_stale _ _ _ _) as [ids|e]; [| exact IH].
    subst ids. destruct (evicted fromisoformat cutoff_time r) eqn:Hev.
    + rewrite decide_True by done. simpl. by rewrite <- app_assoc.
    + by rewrite decide_False by done.
Qed.

(** The horizon is refused exactly when it is out of range. *)
Lemma cutoff_out_of_range (t hours : Z) :
  (hours `div` 24 < -999999999 ∨ 999999999 < hours `div` 24
   ∨ t - hours * 3600000000 < -62135596800000000
   ∨ 253402300799999999 < t - hours * 3600000000)%Z →
  ∃ e, exn_cls e = OverflowError
       ∧ (delta ← timedelta_hours hours; datetime_sub t delta) = Raise e.
Proof.
  intros Hout. unfold timedelta_hours.
  destruct (bool_decide_reflect
              (-999999999 ≤ hours `div` 24 ≤ 999999999)%Z) as [Hdays|Hdays].
  - simpl. unfold datetime_sub, min_instant, max_instant,
      microseconds_per_hour.
    rewrite bool_decide_eq_false_2 by lia.
    eexists. split; [| reflexivity]. reflexivity.
  - destruct (bool_decide _); (eexists; split; [| reflexivity]; reflexivity).
Qed.

(** What [cleanup_old_sessions] does on any store. *)
Lemma cleanup_outcome (m : manager) (hours : Z) :
  match cleanup_old_sessions clock fromisoformat hours m with
  | (Ok n, m') =>
      ((-999999999 ≤ hours `div` 24 ≤ 999999999)%Z
       ∧ (-62135596800000000 ≤ clock (ticks m) - hours * 3600000000
          ≤ 253402300799999999)%Z)
      ∧ (∀ sid,
           sessions m' !! sid
           = match sessions m !! sid with
             | Some r =>
                 if evicted fromisoformat
                      (clock (ticks m) - hours * microseconds_per_hour) r
                 then None else Some r
             | None => None
             end)
      ∧ n + size (sessions m') = size (sessions m)
      ∧ ticks m' = S (ticks m)
  | (Raise e, m') =>
      sessions m' = sessions m
      ∧ ticks m' = S (ticks m)
      ∧ (exn_cls e = OverflowError
         ∧ (hours `div` 24 < -999999999 ∨ 999999999 < hours `div` 24
            ∨ clock (ticks m) - hours * 3600000000 < -62135596800000000
            ∨ 253402300799999999 < clock (ticks m) - hours * 3600000000)%Z
         ∨ exn_cls e = AttributeError
           ∧ (-999999999 ≤ hours `div` 24 ≤ 999999999)%Z
           ∧ (-62135596800000000 ≤ clock (ticks m) - hours * 3600000000
              ≤ 253402300799999999)%Z)
  end.
Proof.
  set (cutoff_time := (clock (ticks m) - hours * microseconds_per_hour)%Z).
  rewrite cleanup_steps.
  destruct (decide ((-999999999 ≤ hours `div` 24 ≤ 999999999)%Z
                    ∧ (-62135596800000000
                       ≤ clock (ticks m) - hours * 3600000000
                       ≤ 253402300799999999)%Z)) as [[Hdays Hrange]|Hout].
  2: { destruct (cutoff_out_of_range (clock (ticks m)) hours)
         as (e & Hcls & Hraise); [lia |].
       destruct (timedelta_hours hours) as [delta|e'].
       - simpl in Hraise. rewrite Hraise. split_and!; [done | done |].
         left. split; [done | lia].
       - injection Hraise as ->. split_and!; [done | done |].
         left. split; [done | lia]. }
  destruct (cutoff_in_range (clock (ticks m)) hours Hdays Hrange)
    as [-> ->].
  fold cutoff_time.
  pose proof (collect_stale_outcome cutoff_time (map_to_list (sessions m)) [])
    as Hcollect.
  destruct (collect_stale _ _ _ _) as [stale|e];
    [| split_and!; [done | done | by right] ].
  simpl in Hcollect.
  assert (Hmem : ∀ k, k ∈ stale ↔
            ∃ r, sessions m !! k = Some r
                 ∧ evicted fromisoformat cutoff_time r = true).
  { intros k. rewrite Hcollect, list_elem_of_fmap. split.
    - intros ([k' r] & -> & Hkr). apply list_elem_of_filter in Hkr as [Hev Hkr].
      apply elem_of_map_to_list in Hkr. by exists r.
    - intros (r & Hr & Hev). exists (k, r). split; [done |].
      apply list_elem_of_filter. split; [done |].
      by apply elem_of_map_to_list. }
  assert (Hnodup : NoDup stale).
  { rewrite Hcollect.
    apply (sublist_NoDup _ (map_to_list (sessions m)).*1).
    - apply NoDup_fst_map_to_list.
    - apply fmap_sublist, sublist_filter. }
  destruct (delete_all_spec stale
              {| sessions := sessions m; ticks := S (ticks m) |} Hnodup)
    as (s' & Hdel & Hlookup & Hsize).
  { intros i Hi. apply Hmem in Hi as (r & Hr & _). by exists r. }
  rewrite Hdel.
  split; [done |]. split; [| split; [simpl in *; lia | done] ].
  intros sid. simpl. rewrite Hlookup. simpl.
  destruct (decide (sid ∈ stale)) as [Hin | Hout].
  - apply Hmem in Hin as (r & -> & ->). done.
  - destruct (sessions m !! sid) as [r|] eqn:Hr; [| done].
    destruct (evicted fromisoformat cutoff_time r) eqn:Hev; [| done].
    destruct Hout. apply Hmem. by exists r.
Qed.

(** X11. On any store and for any horizon, [cleanup_old_sessions] has one
    of three outcomes, and in each it reads the clock once. It returns:
    then the horizon is at most 999999999 days and the cutoff is a datetime
    (between year 1 and year 9999), exactly the records that [evicted]
    names are removed, every other record is as it was, and the result is
    the number removed. It raises [OverflowError]: then the horizon or the
    cutoff is out of that range, and no record has been removed. It raises
    [AttributeError]: then the horizon and the cutoff are in range, and no
    record has been removed. *)
Theorem cleanup_all_or_nothing (m : manager) (hours : Z) :
  match cleanup_old_sessions clock fromisoformat hours m with
  | (Ok n, m') =>
      ((-999999999 ≤ hours `div` 24 ≤ 999999999)%Z
       ∧ (-62135596800000000 ≤ clock (ticks m) - hours * 3600000000
          ≤ 253402300799999999)%Z)
      ∧ (∀ sid,
           sessions m' !! sid
           = match sessions m !! sid with
             | Some r =>
                 if evicted fromisoformat
                      (clock (ticks m) - hours * 3600000000) r
                 then None else Some r
             | None => None
             end)
      ∧ n + size (sessions m') = size (sessions m)
      ∧ ticks m' = S (ticks m)
  | (Raise e, m') =>
      sessions m' = sessions m
      ∧ ticks m' = S (ticks m)
      ∧ (exn_cls e = OverflowError
         ∧ (hours `div` 24 < -999999999 ∨ 999999999 < hours `div` 24
            ∨ clock (ticks m) - hours * 3600000000 < -62135596800000000
            ∨ 253402300799999999 < clock (ticks m) - hours * 3600000000)%Z
         ∨ exn_cls e = AttributeError
           ∧ (-999999999 ≤ hours `div` 24 ≤ 999999999)%Z
           ∧ (-62135596800000000 ≤ clock (ticks m) - hours * 3600000000
              ≤ 253402300799999999)%Z)
  end.
Proof. exact (cleanup_outcome m hours). Qed.

(** X12. A session that [get_session] has just touched is not removed by
    a cleanup whose horizon reaches back to that touch: if the timestamp
    written reads back as the instant of the touch, and the clock at the
    cleanup is at most the given hours later, the record is in the store
    after the cleanup exactly as before it. *)
Theorem recent_session_survives (m : manager) (sid : string) (hours : Z) :
  let m1 := (get_session clock isoformat sid m).2 in
  let touch := clock (ticks m1 - 1) in
  fromisoformat (replace_Z (isoformat touch)) = Some (Aware touch) →
  (clock (ticks m1) - hours * microseconds_per_hour ≤ touch)%Z →
  is_Some (sessions m1 !! sid)
  ∧ sessions (cleanup_old_sessions clock fromisoformat hours m1).2 !! sid
    = sessions m1 !! sid.
Proof.
  intros m1 touch Hparse Hrecent.
  assert (Hrec : ∃ r1, sessions m1 !! sid = Some r1
                       ∧ r1 !! "last_updated" = Some (PStr (isoformat touch))).
  { subst touch m1. destruct (sessions m !! sid) as [r|] eqn:Hsid.
    - rewrite (get_session_present _ _ _ _ _ Hsid). simpl.
      rewrite ?Nat.sub_0_r. eexists. rewrite lookup_insert_eq.
      split; [done |]. by rewrite lookup_insert_eq.
    - rewrite (get_session_absent _ _ _ _ Hsid). simpl.
      rewrite ?Nat.sub_0_r. eexists. rewrite lookup_insert_eq.
      split; [done |]. unfold fresh_record.
      rewrite !(lookup_insert_ne _ _ "last_updated") by done.
      by rewrite lookup_insert_eq. }
  destruct Hrec as (r1 & Hr1 & Hlu). split; [by eexists |].
  pose proof (cleanup_outcome m1 hours) as Hout.
  destruct (cleanup_old_sessions clock fromisoformat hours m1)
    as [[n|e] m2]; simpl.
  - destruct Hout as (_ & Hlookup & _ & _). rewrite Hlookup, Hr1.
    unfold evicted. rewrite Hlu.
    destruct (String.eqb (isoformat touch) ""); [done |].
    rewrite Hparse.
    by rewrite (proj2 (Z.ltb_ge _ _)).
  - destruct Hout as (-> & _ & _). done.
Qed.

End Eviction.

Lemma update_with_own_record_witness :
  (session ← get_session Stub.clock Stub.isoformat "s1";
   update_session Stub.clock Stub.isoformat "s1" session) Stub.one_session
  = (Ok (),
     {| sessions :=
          <["s1" := <["last_updated" := PStr "3000"]> Stub.s1_record]>
            (sessions Stub.one_session);
        ticks := 4 |}).
Proof.
  exact (update_with_own_record Stub.clock Stub.isoformat Stub.one_session
           "s1" Stub.s1_record eq_refl).
Defined.

Lemma travel_context_merge_witness :
  ∃ m1 m2,
    save_travel_context Stub.clock Stub.isoformat "s1"
      {["city" := PStr "Kyoto"]} Stub.one_session = (Ok (), m1)
    ∧ get_travel_context Stub.clock Stub.isoformat "s1" m1
      = (Ok (PDict ({["city" := PStr "Kyoto"]} ∪ ∅)), m2)
    ∧ preferences m1 "s1" = Some {["language" := PStr "en"]}.
Proof.
  destruct (travel_context_merge Stub.clock Stub.isoformat Stub.one_session
              "s1" {["city" := PStr "Kyoto"]} ∅ eq_refl)
    as (m1 & m2 & Hsave & Hget & _ & Hprefs & _).
  exists m1, m2. split_and!; [done | done |]. by rewrite Hprefs.
Defined.

Lemma save_user_preference_frame_witness :
  ∃ m1,
    save_user_preference Stub.clock Stub.isoformat "s1" "budget" (PStr "low")
      Stub.one_session = (Ok (), m1)
    ∧ dict_field m1 "s1" "travel_context" = Some ∅
    ∧ transcript m1 "s1" = Some [PDict (<["role" := PStr "user"]>
                                          {["content" := PStr "Hello"]})].
Proof.
  destruct (save_user_preference_frame Stub.clock Stub.isoformat
              Stub.one_session "s1" "budget" (PStr "low")
              {["language" := PStr "en"]} eq_refl)
    as (m1 & Hsave & Hctx & Htr).
  exists m1. split_and!; [done | by rewrite Hctx | by rewrite Htr].
Defined.

Lemma save_user_preference_twice_witness :
  ∃ m1 m2,
    save_user_preference Stub.clock Stub.isoformat "s1" "budget" (PStr "low")
      Stub.one_session = (Ok (), m1)
    ∧ save_user_preference Stub.clock Stub.isoformat "s1" "budget"
        (PStr "high") m1 = (Ok (), m2)
    ∧ preferences m2 "s1"
      = Some (<["budget" := PStr "high"]> {["language" := PStr "en"]}).
Proof.
  destruct (save_user_preference_twice Stub.clock Stub.isoformat
              Stub.one_session "s1" "budget" "budget" (PStr "low")
              (PStr "high") {["language" := PStr "en"]} eq_refl)
    as (m1 & m2 & Hsave1 & Hsave2 & _ & Hsame).
  exists m1, m2. split_and!; [done | done |]. by apply Hsame.
Defined.

Lemma reading_creates_session_witness :
  ∃ created,
    get_user_preference Stub.clock Stub.isoformat "s2" "budget" (PStr "mid")
      Stub.one_session = (Ok (PStr "mid"), created)
    ∧ get_travel_context Stub.clock Stub.isoformat "s2" Stub.one_session
      = (Ok (PDict ∅), created)
    ∧ get_session_count created = (Ok 2, created).
Proof.
  eexists.
  exact (reading_creates_session Stub.clock Stub.isoformat Stub.one_session
           "s2" "budget" (PStr "mid") eq_refl).
Defined.

Lemma preferences_not_a_dictionary_witness :
  let m := {| sessions := {["a" := {["user_preferences" := PList []]}]};
              ticks := 0 |} in
  ∃ touched,
    save_user_preference Stub.clock Stub.isoformat "a" "budget" (PStr "low") m
    = (Raise (Exn TypeError "list indices must be integers or slices, not str"),
       touched)
    ∧ field touched "a" "user_preferences" = Some (PList []).
Proof.
  intros m.
  destruct (preferences_not_a_dictionary Stub.clock Stub.isoformat m "a"
              "budget" (PStr "low") PNone (PList [])
              {["user_preferences" := PList []]} eq_refl eq_refl)
    as (Hsave & _ & Hfield); [discriminate |].
  eexists. split; [exact Hsave | exact Hfield].
Defined.

Lemma recent_session_survives_witness :
  sessions (cleanup_old_sessions Stub.clock Stub.fromisoformat 1
              (get_session Stub.clock Stub.isoformat "s1" Stub.one_session).2).2
    !! "s1"
  = sessions (get_session Stub.clock Stub.isoformat "s1" Stub.one_session).2
      !! "s1".
Proof.
  apply (recent_session_survives Stub.clock Stub.isoformat Stub.fromisoformat
           Stub.one_session "s1" 1).
  - reflexivity.
  - vm_compute. discriminate.
Defined.

End StoreMore.

(* ===================================================================== *)
(** ** Properties of the chat and clear endpoints *)
(* ===================================================================== *)

Module ChatFacts.

Import SessionManager Backend Chat.
Import StoreFacts.

Ltac lookups :=
  repeat (rewrite lookup_insert_eq || rewrite lookup_insert_ne by done).

Section Endpoints.

Variable clock : nat → Z.
Variable isoformat : Z → string.
Variable complete : Agent.request → result string.
Variable json_loads : string → option pyval.

(** What [chat] does when the session's transcript is a list (or is not
    there yet). *)
Lemma chat_view (m : manager) (message sid : string) (l : list pyval) :
  transcript m sid = Some l →
  let answer :=
    Agent.process_message complete json_loads message sid (Some l) in
  ∃ m',
    chat clock isoformat complete json_loads message sid m
    = (Reply {| reply_text := answer; reply_session_id := sid |}, m')
    ∧ transcript m' sid
      = Some (l ++ [turn "user" message; turn "assistant" answer])
    ∧ delete sid (sessions m') = delete sid (sessions m)
    ∧ dict_field m' sid "user_preferences" = dict_field m sid "user_preferences"
    ∧ dict_field m' sid "travel_context" = dict_field m sid "travel_context".
Proof.
  intros Hl answer.
  destruct (StoreMore.get_session_view clock isoformat m sid)
    as (r1 & m1 & Hget & Hsid1 & Hothers & Hprefs & Hctx & Htr).
  rewrite <- Htr in Hl. rewrite <- Hothers, <- Hprefs, <- Hctx.
  unfold transcript in Hl. rewrite Hsid1 in Hl.
  unfold chat, chat_body. rewrite run_bind, Hget. cbv beta iota.
  destruct (r1 !! "messages") as [[| | | | |l'|]|] eqn:Hmsg;
    try discriminate Hl; injection Hl as <-.
  - rewrite run_bind, bool_decide_eq_false_2 by done.
    unfold mret at 1, M_ret. cbv beta iota.
    rewrite run_bind, (read_session_at _ _ _ Hsid1). cbv beta iota.
    unfold py_item. rewrite Hmsg. rewrite run_bind. unfold lift at 1.
    cbv beta iota. rewrite run_bind. unfold lift at 1. simpl py_extend.
    cbv beta iota.
    rewrite run_bind, (set_field_at _ _ _ _ _ Hsid1). cbv beta iota.
    rewrite run_bind, (read_session_at _ sid _ (lookup_insert_eq _ _ _)).
    cbv beta iota. rewrite run_bind.
    rewrite (update_session_present _ _ _ sid _ _ (lookup_insert_eq _ _ _)).
    cbv beta iota. unfold mret, M_ret.
    eexists. split; [reflexivity |]. simpl.
    rewrite insert_union_self, !insert_insert_eq.
    unfold transcript, dict_field. simpl.
    rewrite lookup_insert_eq, delete_insert_eq, Hsid1.
    split_and!; by lookups.
  - rewrite run_bind, bool_decide_eq_true_2 by done.
    rewrite (set_field_at _ _ _ _ _ Hsid1). cbv beta iota.
    rewrite run_bind, (read_session_at _ sid _ (lookup_insert_eq _ _ _)).
    cbv beta iota.
    unfold py_item. rewrite lookup_insert_eq. rewrite run_bind.
    unfold lift at 1. cbv beta iota. rewrite run_bind. unfold lift at 1.
    simpl py_extend. cbv beta iota.
    rewrite run_bind, (set_field_at _ sid _ _ _ (lookup_insert_eq _ _ _)).
    cbv beta iota.
    rewrite run_bind, (read_session_at _ sid _ (lookup_insert_eq _ _ _)).
    cbv beta iota. rewrite run_bind.
    rewrite (update_session_present _ _ _ sid _ _ (lookup_insert_eq _ _ _)).
    cbv beta iota. unfold mret, M_ret.
    eexists. split; [reflexivity |]. simpl.
    rewrite insert_union_self, !insert_insert_eq.
    unfold transcript, dict_field. simpl.
    rewrite lookup_insert_eq, delete_insert_eq, Hsid1.
    split_and!; by lookups.
Qed.

(** X13. When the session's transcript is a list, or the session or its
    transcript is not there yet, [chat] replies (it does not raise) with
    the text [process_message] gives for the message and that transcript,
    and with the session id it was given. Afterwards the transcript is the
    earlier one followed by the user's message and the reply, in that
    order; the session's preferences and travel context and every other
    session are as before. *)
Theorem chat_appends_exchange (m : manager) (message sid : string)
    (l : list pyval) :
  transcript m sid = Some l →
  let answer :=
    Agent.process_message complete json_loads message sid (Some l) in
  ∃ m',
    chat clock isoformat complete json_loads message sid m
    = (Reply {| reply_text := answer; reply_session_id := sid |}, m')
    ∧ transcript m' sid
      = Some (l ++ [turn "user" message; turn "assistant" answer])
    ∧ delete sid (sessions m') = delete sid (sessions m)
    ∧ dict_field m' sid "user_preferences" = dict_field m sid "user_preferences"
    ∧ dict_field m' sid "travel_context" = dict_field m sid "travel_context".
Proof. apply chat_view. Qed.

(** X14. Two chats in a row: the second is answered with the first
    exchange as part of its history, and the transcript then holds both
    exchanges in order. *)
Theorem chat_twice (m : manager) (first second sid : string)
    (l : list pyval) :
  transcript m sid = Some l →
  let answer1 :=
    Agent.process_message complete json_loads first sid (Some l) in
  let l1 := l ++ [turn "user" first; turn "assistant" answer1] in
  let answer2 :=
    Agent.process_message complete json_loads second sid (Some l1) in
  ∃ m1 m2,
    chat clock isoformat complete json_loads first sid m
    = (Reply {| reply_text := answer1; reply_session_id := sid |}, m1)
    ∧ chat clock isoformat complete json_loads second sid m1
      = (Reply {| reply_text := answer2; reply_session_id := sid |}, m2)
    ∧ transcript m2 sid
      = Some (l ++ [turn "user" first; turn "assistant" answer1;
                    turn "user" second; turn "assistant" answer2]).
Proof.
  intros Hl answer1 l1 answer2.
  destruct (chat_view m first sid l Hl) as (m1 & Hchat1 & Hl1 & _).
  destruct (chat_view m1 second sid l1 Hl1) as (m2 & Hchat2 & Hl2 & _).
  exists m1, m2. split_and!; [done | done |].
  rewrite Hl2. unfold l1. by rewrite <- app_assoc.
Qed.

(** X15. After a chat the session-info endpoint counts two more messages
    than the transcript held before. *)
Theorem chat_then_session_info (m : manager) (message sid : string)
    (l : list pyval) :
  transcript m sid = Some l →
  ∃ info m'',
    get_session_info clock isoformat sid
      (chat clock isoformat complete json_loads message sid m).2
    = (Reply info, m'')
    ∧ info_session_id info = sid
    ∧ message_count info = length l + 2.
Proof.
  intros Hl. destruct (chat_view m message sid l Hl) as (m1 & Hchat & Hl1 & _).
  rewrite Hchat. simpl.
  destruct (StoreMore.get_session_view clock isoformat m1 sid)
    as (r2 & m2 & Hget & Hsid2 & _ & _ & _ & Htr).
  rewrite Hl1 in Htr. unfold transcript in Htr. rewrite Hsid2 in Htr.
  unfold get_session_info, session_info_body.
  rewrite run_bind, Hget. cbv beta iota.
  destruct (r2 !! "messages") as [[| | | | |l2|]|] eqn:Hmsg;
    try discriminate Htr; injection Htr as Htr.
  - simpl. eexists _, _. split; [reflexivity |]. simpl.
    split; [done |]. rewrite Htr, length_app. simpl. lia.
  - by destruct l.
Qed.

(** X16. When the session holds under [messages] something that is not a
    list, [chat] answers with status 500; the value held is not replaced,
    and the only change to the store is the session's [last_updated]. *)
Theorem chat_rejects_malformed_transcript (m : manager)
    (message sid : string) (r : pydict) (v : pyval) :
  sessions m !! sid = Some r →
  r !! "messages" = Some v →
  (∀ l, v ≠ PList l) →
  chat clock isoformat complete json_loads message sid m
  = (HTTPException 500
       ("Error processing message: " +:+ exn_text (no_attribute v "extend")),
     {| sessions :=
          <[sid := <["last_updated" := PStr (isoformat (clock (ticks m)))]> r]>
            (sessions m);
        ticks := S (ticks m) |}).
Proof.
  intros Hsid Hv Hnot.
  pose proof (get_session_present clock isoformat m sid r Hsid) as Hget.
  unfold chat, chat_body. rewrite run_bind, Hget. cbv beta iota.
  rewrite lookup_insert_ne by done.
  rewrite run_bind, bool_decide_eq_false_2 by (by rewrite Hv).
  unfold mret at 1, M_ret. cbv beta iota.
  rewrite run_bind, (read_session_at _ sid _ (lookup_insert_eq _ _ _)).
  cbv beta iota. unfold py_item. rewrite lookup_insert_ne by done.
  rewrite Hv. rewrite run_bind. unfold lift at 1. cbv beta iota.
  rewrite run_bind. unfold lift at 1.
  destruct v as [| | | | |l|]; try reflexivity. by destruct (Hnot l).
Qed.

(** X17. [clear_conversation] always answers success, for an id the store
    does not hold too, and then the store is unchanged: it does not create
    the session. After it the session's transcript is the empty list,
    whatever was held under [messages] before, so the chat that follows is
    answered without history and leaves a transcript of two messages. *)
Theorem clear_conversation_resets (m : manager) (message sid : string) :
  let answer :=
    Agent.process_message complete json_loads message sid (Some []) in
  ∃ m1 m2,
    clear_conversation clock isoformat sid m
    = (Reply {| status := "success";
                status_message := "Conversation cleared" |}, m1)
    ∧ (sessions m !! sid = None → m1 = m)
    ∧ transcript m1 sid = Some []
    ∧ chat clock isoformat complete json_loads message sid m1
      = (Reply {| reply_text := answer; reply_session_id := sid |}, m2)
    ∧ transcript m2 sid
      = Some [turn "user" message; turn "assistant" answer].
Proof.
  intros answer.
  assert (Hclear : ∃ m1,
            clear_session clock isoformat sid m = (Ok (), m1)
            ∧ (sessions m !! sid = None → m1 = m)
            ∧ transcript m1 sid = Some []).
  { destruct (sessions m !! sid) as [r|] eqn:Hsid.
    - eexists. split; [by apply clear_session_present |]. split; [done |].
      unfold transcript. simpl. by lookups.
    - exists m. split; [by apply clear_session_absent |]. split; [done |].
      unfold transcript. by rewrite Hsid. }
  destruct Hclear as (m1 & Hclear & Hsame & Hempty).
  destruct (chat_view m1 message sid [] Hempty) as (m2 & Hchat & Htr & _).
  exists m1, m2. unfold clear_conversation. rewrite Hclear.
  split_and!; done.
Qed.

(** X18. When every call of the completion API fails, [chat] still replies
    (status 200): the reply is the graph-error text with the error's
    description, and that text is recorded in the transcript as the
    assistant's turn. *)
Theorem chat_records_failure (m : manager) (message sid : string) (e : exn)
    (l : list pyval) (formatted : list Agent.message) :
  (∀ req, complete req = Raise e) →
  transcript m sid = Some l →
  Agent.format_history l = Ok formatted →
  ∃ m',
    chat clock isoformat complete json_loads message sid m
    = (Reply {| reply_text := "Graph execution error: " +:+ exn_text e;
                reply_session_id := sid |}, m')
    ∧ transcript m' sid
      = Some (l ++ [turn "user" message;
                    turn "assistant"
                      ("Graph execution error: " +:+ exn_text e)]).
Proof.
  intros Hdown Hl Hfmt.
  destruct (chat_view m message sid l Hl) as (m' & Hchat & Htr & _).
  assert (Hanswer : Agent.process_message complete json_loads message sid
                      (Some l)
                    = "Graph execution error: " +:+ exn_text e).
  { unfold Agent.process_message, Agent.process_body. simpl.
    rewrite Hfmt. simpl.
    unfold Agent._run_graph_async, Agent.invoke, Agent.analyze_travel_intent.
    by rewrite Hdown. }
  rewrite Hanswer in Hchat, Htr. by exists m'.
Qed.

End Endpoints.

Section Timed.

Variable clock : nat → Z.
Variable isoformat : Z → string.
Variable fromisoformat : string → option datetime.
Variable complete : Agent.request → result string.
Variable json_loads : string → option pyval.

Hypothesis clock_monotone : ∀ i j, i ≤ j → (clock i ≤ clock j)%Z.
Hypothesis parse_isoformat :
  ∀ t, fromisoformat (isoformat t) = Some (Aware t).

Lemma chat_body_hoare (message sid : string) :
  hoare (store_inv clock fromisoformat)
        (chat_body clock isoformat complete json_loads message sid)
        (λ _, store_inv clock fromisoformat)
        (store_inv clock fromisoformat).
Proof.
  unfold chat_body.
  eapply hoare_bind; [by apply get_session_hoare |]. intros session.
  eapply (hoare_bind _ _ _ (λ _, store_inv clock fromisoformat)).
  { eapply hoare_weaken with (P' := store_inv clock fromisoformat)
                             (Q' := λ _, store_inv clock fromisoformat);
      [| by intros ? [? ?] | done].
    destruct (bool_decide _);
      [by apply set_field_hoare |].
    apply (hoare_ret () (λ _, store_inv clock fromisoformat)). }
  intros _.
  eapply (hoare_bind _ _ _ (λ _, store_inv clock fromisoformat)).
  { eapply hoare_weaken; [apply read_session_hoare | done |].
    by intros ?? [? ?]. }
  intros session1.
  eapply hoare_bind; [apply hoare_lift |]. intros stored.
  eapply hoare_bind; [apply hoare_lift |]. intros extended.
  eapply (hoare_bind _ _ _ (λ _, store_inv clock fromisoformat));
    [by apply set_field_hoare |].
  intros _.
  eapply hoare_bind; [apply read_session_hoare |]. intros session2.
  eapply (hoare_bind _ _ _ (λ _, store_inv clock fromisoformat)).
  { eapply hoare_weaken; [by apply update_session_hoare | | done].
    intros m0 [Hinv Hsid]. split; [done |].
    by apply stored_record_admissible. }
  intros _. apply (hoare_ret _ (λ _, store_inv clock fromisoformat)).
Qed.

(** X19. With a clock that does not run backwards, [chat] and
    [clear_conversation] keep the timestamp invariant of the store, whether
    they reply or answer with status 500: afterwards every record's
    [last_updated] is still not earlier than its [created_at]. *)
Theorem endpoints_keep_invariant (m : manager) (message sid : string) :
  store_inv clock fromisoformat m →
  store_inv clock fromisoformat
    (chat clock isoformat complete json_loads message sid m).2
  ∧ store_inv clock fromisoformat (clear_conversation clock isoformat sid m).2.
Proof.
  intros Hinv. split.
  - pose proof (chat_body_hoare message sid m Hinv) as Hbody.
    unfold chat.
    by destruct (chat_body _ _ _ _ _ _ _) as [[r|e] m'].
  - pose proof (clear_session_inv clock isoformat fromisoformat
                  clock_monotone parse_isoformat m sid Hinv) as Hclear.
    unfold clear_conversation.
    by destruct (clear_session _ _ _ _) as [[[]|e] m'].
Qed.

End Timed.

Lemma chat_appends_exchange_witness :
  ∃ m',
    chat Stub.clock Stub.isoformat
      (Stub.scripted_complete "classification" "Try Kyoto.")
      (Stub.scripted_loads "classification" Stub.destination_payload)
      "What's a good 5-day trip to Japan?" "s2" Stub.one_session
    = (Reply {| reply_text :=
                  Agent.process_message
                    (Stub.scripted_complete "classification" "Try Kyoto.")
                    (Stub.scripted_loads "classification"
                       Stub.destination_payload)
                    "What's a good 5-day trip to Japan?" "s2" (Some []);
                reply_session_id := "s2" |}, m')
    ∧ transcript m' "s2"
      = Some [turn "user" "What's a good 5-day trip to Japan?";
              turn "assistant"
                (Agent.process_message
                   (Stub.scripted_complete "classification" "Try Kyoto.")
                   (Stub.scripted_loads "classification"
                      Stub.destination_payload)
                   "What's a good 5-day trip to Japan?" "s2" (Some []))]
    ∧ sessions m' !! "s1" = Some Stub.s1_record.
Proof.
  destruct (chat_appends_exchange Stub.clock Stub.isoformat
              (Stub.scripted_complete "classification" "Try Kyoto.")
              (Stub.scripted_loads "classification" Stub.destination_payload)
              Stub.one_session "What's a good 5-day trip to Japan?" "s2" []
              eq_refl)
    as (m' & Hchat & Htr & Hothers & _).
  exists m'. split_and!; [done | done |].
  assert (H : delete "s2" (sessions m') !! "s1"
              = delete "s2" (sessions Stub.one_session) !! "s1")
    by (by rewrite Hothers).
  rewrite lookup_delete_ne in H by done. rewrite H. reflexivity.
Defined.

Lemma chat_twice_witness :
  ∃ m1 m2 answer1 answer2,
    chat Stub.clock Stub.isoformat (Stub.complete (Ok "Try Kyoto."))
      (Stub.json_loads None) "Where to?" "s2" Stub.one_session
    = (Reply {| reply_text := answer1; reply_session_id := "s2" |}, m1)
    ∧ chat Stub.clock Stub.isoformat (Stub.complete (Ok "Try Kyoto."))
        (Stub.json_loads None) "And then?" "s2" m1
      = (Reply {| reply_text := answer2; reply_session_id := "s2" |}, m2)
    ∧ transcript m2 "s2"
      = Some [turn "user" "Where to?"; turn "assistant" answer1;
              turn "user" "And then?"; turn "assistant" answer2].
Proof.
  destruct (chat_twice Stub.clock Stub.isoformat
              (Stub.complete (Ok "Try Kyoto.")) (Stub.json_loads None)
              Stub.one_session "Where to?" "And then?" "s2" [] eq_refl)
    as (m1 & m2 & H1 & H2 & Htr).
  eexists m1, m2, _, _. split_and!; [exact H1 | exact H2 | exact Htr].
Defined.

Lemma chat_then_session_info_witness :
  ∃ info m'',
    get_session_info Stub.clock Stub.isoformat "s1"
      (chat Stub.clock Stub.isoformat (Stub.complete (Ok "Try Kyoto."))
         (Stub.json_loads None) "Where to?" "s1" Stub.one_session).2
    = (Reply info, m'')
    ∧ message_count info = 3.
Proof.
  destruct (chat_then_session_info Stub.clock Stub.isoformat
              (Stub.complete (Ok "Try Kyoto.")) (Stub.json_loads None)
              Stub.one_session "Where to?" "s1" _ eq_refl)
    as (info & m'' & Hinfo & _ & Hcount).
  by exists info, m''.
Defined.

Lemma chat_rejects_malformed_transcript_witness :
  ∃ m',
    chat Stub.clock Stub.isoformat (Stub.complete (Ok "Try Kyoto."))
      (Stub.json_loads None) "Where to?" "a"
      {| sessions := {["a" := {["messages" := PStr "lost"]}]}; ticks := 0 |}
    = (HTTPException 500
         "Error processing message: 'str' object has no attribute 'extend'",
       m')
    ∧ field m' "a" "messages" = Some (PStr "lost").
Proof.
  eexists. split.
  - apply (chat_rejects_malformed_transcript Stub.clock Stub.isoformat
             (Stub.complete (Ok "Try Kyoto.")) (Stub.json_loads None)
             {| sessions := {["a" := {["messages" := PStr "lost"]}]};
                ticks := 0 |}
             "Where to?" "a" {["messages" := PStr "lost"]} (PStr "lost"));
      [reflexivity | reflexivity | discriminate].
  - reflexivity.
Defined.

Lemma clear_conversation_resets_witness :
  ∃ m2,
    clear_conversation Stub.clock Stub.isoformat "s2" Stub.one_session
    = (Reply {| status := "success";
                status_message := "Conversation cleared" |},
       Stub.one_session)
    ∧ chat Stub.clock Stub.isoformat (Stub.complete (Ok "Try Kyoto."))
        (Stub.json_loads None) "Where to?" "s2" Stub.one_session
      = (Reply {| reply_text := "Try Kyoto."; reply_session_id := "s2" |}, m2)
    ∧ transcript m2 "s2"
      = Some [turn "user" "Where to?"; turn "assistant" "Try Kyoto."].
Proof.
  destruct (clear_conversation_resets Stub.clock Stub.isoformat
              (Stub.complete (Ok "Try Kyoto.")) (Stub.json_loads None)
              Stub.one_session "Where to?" "s2")
    as (m1 & m2 & Hclear & Hsame & _ & Hchat & Htr).
  rewrite (Hsame eq_refl) in Hclear, Hchat.
  exists m2. split_and!; [exact Hclear | exact Hchat | exact Htr].
Defined.

Lemma chat_records_failure_witness :
  ∃ m',
    chat Stub.clock Stub.isoformat (Stub.complete (Raise Stub.timeout))
      (Stub.json_loads None) "Where to?" "s2" Stub.one_session
    = (Reply {| reply_text := "Graph execution error: Request timed out.";
                reply_session_id := "s2" |}, m')
    ∧ transcript m' "s2"
      = Some [turn "user" "Where to?";
              turn "assistant" "Graph execution error: Request timed out."].
Proof.
  exact (chat_records_failure Stub.clock Stub.isoformat
           (Stub.complete (Raise Stub.timeout)) (Stub.json_loads None)
           Stub.one_session "Where to?" "s2" Stub.timeout [] []
           (λ _, eq_refl) eq_refl eq_refl).
Defined.

Lemma endpoints_keep_invariant_witness :
  store_inv Stub.clock Stub.fromisoformat
    (chat Stub.clock Stub.isoformat (Stub.complete (Ok "Try Kyoto."))
       (Stub.json_loads None) "Where to?" "s1" Stub.one_session).2.
Proof.
  apply (endpoints_keep_invariant Stub.clock Stub.isoformat
           Stub.fromisoformat (Stub.complete (Ok "Try Kyoto."))
           (Stub.json_loads None) stub_clock_monotone stub_parse_isoformat
           Stub.one_session "Where to?" "s1" stub_one_session_inv).
Defined.

End ChatFacts.

(* ===================================================================== *)
(** ** Further properties of the conversation workflow *)
(* ===================================================================== *)

Module AgentMore.

Import Agent.

(** The test of the role in [process_message], as two comparisons. *)
Lemma role_match {A} (s : string) (a b c : A) :
  match s with
  | "user" => a
  | "assistant" => b
  | _ => c
  end
  = if String.eqb s "user" then a
    else if String.eqb s "assistant" then b else c.
Proof.
  repeat (destruct s as [|[[] [] [] [] [] [] [] []] s]; try reflexivity).
Qed.

Lemma format_entry_role (d : pydict) :
  format_entry (PDict d)
  = match d !! "role" with
    | Some (PStr s) =>
        if String.eqb s "user" then
          c ← py_item d "content"; mret [Message "user" c]
        else if String.eqb s "assistant" then
          c ← py_item d "content"; mret [Message "assistant" c]
        else mret []
    | _ => mret []
    end.
Proof.
  unfold format_entry.
  destruct (d !! "role") as [[| | | |s| |]|]; try reflexivity.
  by rewrite <- role_match.
Qed.

Lemma format_history_app (l1 l2 : list pyval) :
  format_history (l1 ++ l2)
  = (a ← format_history l1; b ← format_history l2; mret (a ++ b)).
Proof.
  induction l1 as [|v l1 IH]; cbn [format_history app].
  - by destruct (format_history l2).
  - destruct (format_entry v) as [entry|e]; [simpl | done].
    rewrite IH. destruct (format_history l1) as [a|e]; [simpl | done].
    destruct (format_history l2) as [b|e]; [simpl | done].
    by rewrite app_assoc.
Qed.

(** A stored turn and the message it stands for: a dictionary whose role
    is user or assistant and that has a content. *)
Lemma format_history_turns (h : list pyval) (msgs : list message) :
  Forall2 (λ v msg, ∃ d, v = PDict d
                         ∧ d !! "role" = Some (PStr (role msg))
                         ∧ d !! "content" = Some (content msg)
                         ∧ (role msg = "user" ∨ role msg = "assistant"))
          h msgs →
  format_history h = Ok msgs.
Proof.
  induction 1 as [|v [r c] h msgs (d & -> & Hrole & Hcontent & Hr) _ IH];
    [done |].
  cbn [role content] in *. cbn [format_history].
  rewrite format_entry_role, Hrole. unfold py_item.
  rewrite Hcontent, IH.
  destruct Hr as [-> | ->]; reflexivity.
Qed.

(** X20. Reading the history back: a list of dictionaries, each with role
    user or assistant and with a content, is turned into the messages with
    those roles and contents, in the same order and none left out; any
    other key of a dictionary is ignored. *)
Theorem format_history_reads_turns (h : list pyval) (msgs : list message) :
  Forall2 (λ v msg, ∃ d, v = PDict d
                         ∧ d !! "role" = Some (PStr (role msg))
                         ∧ d !! "content" = Some (content msg)
                         ∧ (role msg = "user" ∨ role msg = "assistant"))
          h msgs →
  format_history h = Ok msgs ∧ length msgs = length h.
Proof.
  intros H. split; [by apply format_history_turns |].
  symmetry. by eapply Forall2_length.
Qed.

(** X21. A dictionary whose role is neither user nor assistant (or that
    has no role) is dropped from the history without an error, whether or
    not it has a content: the history is read as if the entry were not
    there. *)
Theorem format_history_drops_other_roles (l1 l2 : list pyval) (d : pydict) :
  d !! "role" ≠ Some (PStr "user") →
  d !! "role" ≠ Some (PStr "assistant") →
  format_history (l1 ++ PDict d :: l2) = format_history (l1 ++ l2).
Proof.
  intros Huser Hassistant.
  assert (Hentry : format_entry (PDict d) = Ok []).
  { rewrite format_entry_role.
    destruct (d !! "role") as [[| | | |s| |]|]; try reflexivity.
    destruct (String.eqb_spec s "user") as [-> | _]; [done |].
    destruct (String.eqb_spec s "assistant") as [-> | _]; [done |].
    reflexivity. }
  rewrite !format_history_app. cbn [format_history]. rewrite Hentry.
  destruct (format_history l1) as [a|e]; [| done].
  by destruct (format_history l2).
Qed.


(** X23. The conditional edge and the follow-up node never rewrite the
    draft: when they return, the response is the generator's text with a
    (possibly empty) text after it, and every other key of the state is as
    it was. *)
Theorem augmenter_only_appends (st st' : wstate) (g : string) :
  response st = Some g →
  after_generation st = Ok st' →
  ∃ suffix, st' = set_response st (g +:+ suffix).
Proof.
  intros Hresp Hrun.
  assert (Hsame : st = set_response st (g +:+ "")).
  { rewrite AgentFacts.string_app_nil_r. destruct st. simpl in Hresp.
    by subst. }
  unfold after_generation in Hrun.
  destruct (should_ask_followup st) as [[|]|]; simpl in Hrun;
    [| injection Hrun as <-; by exists "" | discriminate Hrun].
  unfold add_followup_questions in Hrun.
  destruct (lookup_bank (get_intent st)) as [[qs|]|]; simpl in Hrun;
    [| injection Hrun as <-; by exists "" | discriminate Hrun].
  injection Hrun as <-. rewrite Hresp. by eexists.
Qed.

(** *** Old turns *)








(** X25. The prompt table: for a string intent the selection never
    raises; every string outside the eight specialised intents, "other"
    and any unknown label among them, selects the general_travel prompt;
    so does an intent that is not a string but can be hashed; a list or a
    dictionary raises [TypeError]. *)
Theorem prompt_fallback :
  (∀ s, ∃ prompt, select_system_prompt (PStr s) = Ok prompt)
  ∧ (∀ s, s ∉ ["destination_inquiry"; "itinerary_planning";
               "budget_planning"; "accommodation"; "transportation";
               "dining"; "requirements"; "greeting"] →
          select_system_prompt (PStr s) = Ok general_travel_prompt)
  ∧ select_system_prompt (PStr "other") = Ok general_travel_prompt
  ∧ (∀ i, hashable i = true → (∀ s, i ≠ PStr s) →
          select_system_prompt i = Ok general_travel_prompt)
  ∧ (∀ i, hashable i = false →
          select_system_prompt i = Raise (unhashable i)).
Proof.
  split_and!.
  - intros s. unfold select_system_prompt. simpl. by eexists.
  - intros s Hs. unfold select_system_prompt. simpl. f_equal.
    rewrite !not_elem_of_cons in Hs.
    destruct Hs as (H1 & H2 & H3 & H4 & H5 & H6 & H7 & H8 & _).
    unfold system_prompts. cbn [list_to_map foldr uncurry fst snd].
    rewrite !lookup_insert_ne by done.
    destruct (decide (s = "general_travel")) as [-> | Hne].
    + by rewrite lookup_insert_eq.
    + by rewrite lookup_insert_ne, lookup_empty by done.
  - reflexivity.
  - intros i Hhash Hnot. unfold select_system_prompt. rewrite Hhash.
    destruct i as [| | | |s| |]; try reflexivity. by destruct (Hnot s).
  - intros i Hhash. unfold select_system_prompt. by rewrite Hhash.
Qed.

(** X26. A classification whose intent is one of the three follow-up
    intents and whose confidence is not a number loses the draft: although
    the generator's call succeeds, the comparison with 0.7 raises, and the
    caller gets the graph-error text with that error instead of the
    generated reply. *)
Theorem nonnumeric_confidence_discards_draft
    (complete : request → result string)
    (json_loads : string → option pyval)
    (message sid text s g : string) (d : pydict) (v : pyval) (e : exn) :
  complete (classifier_request message) = Ok text →
  json_loads text = Some (PDict d) →
  d !! "intent" = Some (PStr s) →
  s ∈ followup_intents →
  d !! "confidence" = Some v →
  gt_float v (7 # 10) = Raise e →
  (∀ req, req_json_mode req = false → complete req = Ok g) →
  process_message complete json_loads message sid None
  = "Graph execution error: " +:+ exn_text e.
Proof.
  intros Hcall Hjson Hintent Hs Hconf Hgt Hgen.
  unfold process_message, process_body. simpl.
  unfold _run_graph_async, invoke, analyze_travel_intent. simpl.
  rewrite Hcall. simpl.
  rewrite AgentFacts.read_classification_cases, Hjson, Hintent, Hconf.
  simpl. unfold generate_travel_response, get_intent. simpl.
  rewrite Hgen by done. simpl.
  unfold after_generation, should_ask_followup, get_intent, get_confidence.
  simpl. rewrite bool_decide_eq_true_2 by done. by rewrite Hgt.
Qed.

(** X27. A classification whose intent is a list or a dictionary stops
    the transaction at the prompt table: the caller gets the graph-error
    text for the unhashable key, whatever the generator would have
    answered. *)
Theorem unhashable_intent_stops_transaction
    (complete : request → result string)
    (json_loads : string → option pyval)
    (message sid text : string) (d : pydict) (i : pyval) :
  complete (classifier_request message) = Ok text →
  json_loads text = Some (PDict d) →
  d !! "intent" = Some i →
  hashable i = false →
  process_message complete json_loads message sid None
  = "Graph execution error: " +:+ exn_text (unhashable i).
Proof.
  intros Hcall Hjson Hintent Hhash.
  unfold process_message, process_body. simpl.
  unfold _run_graph_async, invoke, analyze_travel_intent. simpl.
  rewrite Hcall. simpl.
  rewrite AgentFacts.read_classification_cases, Hjson, Hintent.
  simpl. unfold generate_travel_response, get_intent, select_system_prompt.
  simpl. by rewrite Hhash.
Qed.

Lemma format_history_reads_turns_witness :
  format_history [Chat.turn "user" "Hello"; Chat.turn "assistant" "Hi!"]
  = Ok [Message "user" (PStr "Hello"); Message "assistant" (PStr "Hi!")]
  ∧ length [Message "user" (PStr "Hello"); Message "assistant" (PStr "Hi!")]
    = length [Chat.turn "user" "Hello"; Chat.turn "assistant" "Hi!"].
Proof.
  apply format_history_reads_turns.
  repeat constructor; eexists; (split; [reflexivity |]);
    split_and!; try reflexivity; auto.
Defined.

Lemma format_history_drops_other_roles_witness :
  format_history ([Chat.turn "user" "Hello"]
                  ++ PDict {["role" := PStr "system"]}
                  :: [Chat.turn "assistant" "Hi!"])
  = format_history ([Chat.turn "user" "Hello"]
                    ++ [Chat.turn "assistant" "Hi!"]).
Proof.
  apply format_history_drops_other_roles; vm_compute; discriminate.
Defined.


Lemma augmenter_only_appends_witness :
  ∃ suffix,
    set_response Stub.generated
      ("Try Kyoto." +:+ followup_header
       +:+ bullet "What's your budget range for this trip?" +:+ nl
       +:+ bullet "How many days are you planning to travel?")
    = set_response Stub.generated ("Try Kyoto." +:+ suffix).
Proof.
  exact (augmenter_only_appends Stub.generated _ "Try Kyoto." eq_refl eq_refl).
Defined.


Lemma prompt_fallback_witness :
  select_system_prompt (PStr "party_planning") = Ok general_travel_prompt.
Proof.
  destruct prompt_fallback as (_ & Hother & _).
  apply Hother. rewrite !not_elem_of_cons. split_and!; try done.
  apply not_elem_of_nil.
Defined.

Lemma nonnumeric_confidence_discards_draft_witness :
  process_message
    (Stub.scripted_complete "classification" "Try Kyoto.")
    (Stub.scripted_loads "classification"
       (PDict (<["intent" := PStr "budget_planning"]>
                {["confidence" := PStr "high"]})))
    "How much is Japan?" "s1" None
  = "Graph execution error: '>' not supported between instances of 'str' and 'float'".
Proof.
  apply (nonnumeric_confidence_discards_draft _ _ _ _ "classification"
           "budget_planning" "Try Kyoto."
           (<["intent" := PStr "budget_planning"]>
              {["confidence" := PStr "high"]})
           (PStr "high")
           (Exn TypeError
              "'>' not supported between instances of 'str' and 'float'"));
    try reflexivity.
  - unfold followup_intents. set_solver.
  - intros req Hmode. unfold Stub.scripted_complete. by rewrite Hmode.
Defined.

Lemma unhashable_intent_stops_transaction_witness :
  process_message
    (Stub.scripted_complete "classification" "Try Kyoto.")
    (Stub.scripted_loads "classification"
       (PDict {["intent" := PList [PStr "dining"]]}))
    "Where to eat?" "s1" None
  = "Graph execution error: unhashable type: 'list'".
Proof.
  apply (unhashable_intent_stops_transaction _ _ _ _ "classification"
           {["intent" := PList [PStr "dining"]]} (PList [PStr "dining"]));
    reflexivity.
Defined.

End AgentMore.
